(** * Generic extractor ([main.py]): a shallow embedding and its properties

    The program prompts for a URL, an extraction mode and a few options,
    fetches one page, extracts tables, links, paragraphs or CSS-selected
    elements, and saves the result as CSV or JSON.

    Python text is modelled by [string]; a character stands for the code
    point of the same number, so the model covers text whose code points
    are below 256.  Calls into third-party packages whose result depends
    on the network, on the browser or on the HTML grammar are fields of
    the record [Lib]; the parts of pandas and pathlib that the program's
    control flow depends on are written out. *)

From Stdlib Require Import String Ascii List ZArith Bool Arith Lia DecimalString.
Import ListNotations.
Local Open Scope string_scope.
Local Open Scope list_scope.
Local Open Scope nat_scope.

(** ** Python [str] operations *)

Module PyStr.

(** [str.isspace] on one character: code points 9-13, 28-31, 32, 0x85
    and 0xA0. *)
Definition is_space (c : ascii) : bool :=
  let n := nat_of_ascii c in
  ((9 <=? n) && (n <=? 13)) || ((28 <=? n) && (n <=? 32))
  || (n =? 133) || (n =? 160).

(** [str.isdigit] on one character: the decimal digits and the
    superscripts U+00B2, U+00B3, U+00B9. *)
Definition is_digit_char (c : ascii) : bool :=
  let n := nat_of_ascii c in
  ((48 <=? n) && (n <=? 57)) || (n =? 178) || (n =? 179) || (n =? 185).

(** The characters [int] accepts as digits. *)
Definition is_decimal (c : ascii) : bool :=
  let n := nat_of_ascii c in (48 <=? n) && (n <=? 57).

(** [str.lower] on one character: A-Z and the Latin-1 capitals
    U+00C0-U+00DE, the multiplication sign U+00D7 apart. *)
Definition lower_char (c : ascii) : ascii :=
  let n := nat_of_ascii c in
  if ((65 <=? n) && (n <=? 90))
     || ((192 <=? n) && (n <=? 222) && negb (n =? 215))
  then ascii_of_nat (n + 32) else c.

Fixpoint lower (s : string) : string :=
  match s with
  | EmptyString => EmptyString
  | String c r => String (lower_char c) (lower r)
  end.

Fixpoint lstrip (s : string) : string :=
  match s with
  | EmptyString => EmptyString
  | String c r => if is_space c then lstrip r else s
  end.

Fixpoint rstrip (s : string) : string :=
  match s with
  | EmptyString => EmptyString
  | String c r =>
      match rstrip r with
      | EmptyString => if is_space c then EmptyString else String c EmptyString
      | r' => String c r'
      end
  end.

(** [s.strip()] *)
Definition strip (s : string) : string := rstrip (lstrip s).

Fixpoint all_chars (p : ascii -> bool) (s : string) : bool :=
  match s with
  | EmptyString => true
  | String c r => p c && all_chars p r
  end.

(** [s.isdigit()]: false on the empty string. *)
Definition isdigit (s : string) : bool :=
  match s with
  | EmptyString => false
  | _ => all_chars is_digit_char s
  end.

(** [s.split(sep)] for a one-character separator: one piece more than
    there are separators, empty pieces kept. *)
Fixpoint split (sep : ascii) (s : string) : list string :=
  match s with
  | EmptyString => [EmptyString]
  | String c r =>
      if Ascii.eqb c sep then EmptyString :: split sep r
      else match split sep r with
           | [] => [String c EmptyString]
           | p :: ps => String c p :: ps
           end
  end.

(** The value of a string of decimal digits, most significant first. *)
Fixpoint digits_value (acc : nat) (s : string) : nat :=
  match s with
  | EmptyString => acc
  | String c r => digits_value (10 * acc + (nat_of_ascii c - 48)) r
  end.

(** The whitespace [int] skips around a numeral: code points 9-13, 32,
    0x85 and 0xA0 (not 28-31, which [str.strip] removes). *)
Definition is_int_space (c : ascii) : bool :=
  let n := nat_of_ascii c in
  ((9 <=? n) && (n <=? 13)) || (n =? 32) || (n =? 133) || (n =? 160).

Fixpoint lstrip_by (p : ascii -> bool) (s : string) : string :=
  match s with
  | EmptyString => EmptyString
  | String c r => if p c then lstrip_by p r else s
  end.

Fixpoint rstrip_by (p : ascii -> bool) (s : string) : string :=
  match s with
  | EmptyString => EmptyString
  | String c r =>
      match rstrip_by p r with
      | EmptyString => if p c then EmptyString else String c EmptyString
      | r' => String c r'
      end
  end.

(** The longest numeral [int] converts (the default of
    [sys.get_int_max_str_digits()], CPython 3.11). *)
Definition max_str_digits : nat := 4300.

(** [int(s)] for the strings the program passes to it (no sign, no
    underscore): the whitespace around the numeral is skipped; [None]
    stands for the [ValueError] raised when what is left is empty,
    holds anything but decimal digits, or has more than
    [max_str_digits] digits. *)
Definition int (s : string) : option nat :=
  let t := rstrip_by is_int_space (lstrip_by is_int_space s) in
  match t with
  | EmptyString => None
  | _ => if all_chars is_decimal t && (String.length t <=? max_str_digits)
         then Some (digits_value 0 t) else None
  end.

(** [rfind]: the index of the last occurrence of a character. *)
Fixpoint rfind (ch : ascii) (s : string) : option nat :=
  match s with
  | EmptyString => None
  | String c r =>
      match rfind ch r with
      | Some i => Some (S i)
      | None => if Ascii.eqb c ch then Some 0 else None
      end
  end.

(** [s[:n]] *)
Fixpoint take (n : nat) (s : string) : string :=
  match n, s with
  | S k, String c r => String c (take k r)
  | _, _ => EmptyString
  end.

End PyStr.

(** ** Exceptions and the effect monad *)

(** The subclasses of [Exception] that can reach the program. *)
Inductive Exception : Type :=
| EOFError
| ValueError (msg : string)
| ImportError (msg : string)
| LibraryError (name : string).

(** [SystemExit] and [KeyboardInterrupt] derive from [BaseException]
    only: an [except Exception] clause lets them through. *)
Inductive BaseException : Type :=
| KeyboardInterrupt
| SystemExit (code : Z)
| Exc (e : Exception).

Inductive result (A : Type) : Type :=
| Ok (a : A)
| Raise (e : BaseException).
Arguments Ok {A} a.
Arguments Raise {A} e.

(** What [input()] finds on standard input. *)
Inductive stdin_item : Type :=
| Line (s : string)
| CtrlC.

(** Values of a cell of a data frame. *)
Inductive value : Type :=
| VStr (s : string)
| VInt (z : Z)
| VNone.

(** A [pandas.DataFrame] with the default row index: the column labels
    in order, and each row's values in column order. *)
Record DataFrame : Type := mkDF {
  columns : list string;
  rows : list (list value)
}.

(** What the program prints, one constructor per [print] call. *)
Inductive message : Type :=
| MsgNoTables
| MsgTablesFound (n : nat)
| MsgPreview (i : nat) (df : DataFrame)
| MsgInvalidChoice
| MsgSaved (fn : string)
| MsgCancelled
| MsgError (e : Exception).

(** The part of the outside world the program changes. *)
Record World : Type := mkWorld {
  stdin : list stdin_item;
  stdout : list message;        (* oldest first *)
  browsers : nat;               (* headless browser sessions running *)
  files : list (string * string) (* writes, newest first *)
}.

Definition M (A : Type) : Type := World -> result A * World.

Definition ret {A} (a : A) : M A := fun w => (Ok a, w).

Definition bind {A B} (m : M A) (k : A -> M B) : M B :=
  fun w => match m w with
           | (Ok a, w') => k a w'
           | (Raise e, w') => (Raise e, w')
           end.

Definition raise {A} (e : BaseException) : M A := fun w => (Raise e, w).

(** Lifting a library call that changes nothing in [World]. *)
Definition lift {A} (r : result A) : M A := fun w => (r, w).

Declare Scope py_scope.
Delimit Scope py_scope with py.
Notation "x <- m ;; k" := (bind m (fun x => k))
  (at level 61, m at next level, right associativity) : py_scope.
Notation "m ;;; k" := (bind m (fun _ => k))
  (at level 61, right associativity) : py_scope.
Local Open Scope py_scope.

(** [print(...)] *)
Definition print (m : message) : M unit :=
  fun w => (Ok tt, mkWorld (stdin w) (stdout w ++ [m]) (browsers w) (files w)).

(** [input(...)]: the next line of standard input; [EOFError] at end of
    input, [KeyboardInterrupt] when the user interrupts the prompt. *)
Definition input : M string :=
  fun w => match stdin w with
           | [] => (Raise (Exc EOFError), w)
           | Line s :: rest =>
               (Ok s, mkWorld rest (stdout w) (browsers w) (files w))
           | CtrlC :: rest =>
               (Raise KeyboardInterrupt,
                mkWorld rest (stdout w) (browsers w) (files w))
           end.

(** [sys.exit(code)] *)
Definition sys_exit {A} (code : Z) : M A := raise (SystemExit code).

(** ** Third-party calls

    What the packages the program calls answer.  Each field is the
    outcome of one call on given arguments; a call that can raise
    answers [Raise]. *)
Record Lib : Type := mkLib {
  (** [requests.get(url, timeout=30, headers=...)]: status code and body *)
  requests_get : string -> result (Z * string);
  (** the selenium imports and [ChromeDriverManager().install()] *)
  chromedriver_install : result string;
  (** [webdriver.Chrome(service=..., options=...)]: [Ok] when a browser
      session has been started *)
  chrome_launch : result unit;
  (** [driver.get(url)] *)
  driver_get : string -> result unit;
  (** [time.sleep(wait)] *)
  time_sleep : nat -> result unit;
  (** [driver.page_source] after [driver.get(url)] *)
  page_source : string -> result string;
  (** whether [from lxml import etree] and [import html5lib] succeed *)
  has_lxml : bool;
  has_html5lib : bool;
  (** what the table parser behind [pd.read_html(StringIO(html))]
      finds in the text: the tables, or the exception it raises *)
  html_tables : string -> result (list DataFrame);
  (** parsed documents and their elements *)
  Soup : Type;
  Elem : Type;
  (** [BeautifulSoup(html, "lxml")] *)
  BeautifulSoup : string -> result Soup;
  (** [soup.find_all(name)], in document order *)
  find_all : Soup -> string -> list Elem;
  (** whether the selector engine of [soup.select] parses the selector;
      it raises [SelectorSyntaxError] otherwise *)
  selector_valid : string -> bool;
  (** the elements a parsed selector matches, in document order *)
  select_matches : Soup -> string -> list Elem;
  (** [e.get_text(sep, strip=True)] *)
  get_text : Elem -> string -> string;
  (** [e.get(attr)]: [None] when the attribute is absent *)
  get_attr : Elem -> string -> option string;
  (** the text of [df.to_json(orient="records", force_ascii=False,
      indent=2)] *)
  to_json : DataFrame -> result string;
  (** opening a path for writing, as [to_csv] and [to_json] do with the
      path they are given: the exception raised when the path is
      refused ([OSError] for a missing directory, a name too long or a
      missing permission, [ValueError] for a NUL character) *)
  open_w : string -> result unit
}.

(** ** The parts of pandas and pathlib the program relies on *)

Module Pandas.

(** A row as the program builds it: a dict literal, keys in insertion
    order. *)
Definition record : Type := list (string * value).

Definition mem (k : string) (l : list string) : bool :=
  existsb (String.eqb k) l.

(** Appends the labels of [ks] that [seen] lacks, in order. *)
Fixpoint add_labels (seen ks : list string) : list string :=
  match ks with
  | [] => seen
  | k :: r => if mem k seen then add_labels seen r
              else add_labels (seen ++ [k]) r
  end.

(** The labels of a sequence of label lists, each once, in order of
    first appearance. *)
Definition union_labels (ls : list (list string)) : list string :=
  fold_left add_labels ls [].

(** [d.get(k)], a missing key giving the missing value. *)
Fixpoint lookup (k : string) (d : record) : value :=
  match d with
  | [] => VNone
  | (k', v) :: r => if String.eqb k k' then v else lookup k r
  end.

(** [pd.DataFrame(data)] for a list of dicts: the columns are the keys
    in order of first appearance, one row per dict.  An empty list
    gives a frame without columns. *)
Definition DataFrame_of (data : list record) : DataFrame :=
  let cols := union_labels (map (map fst) data) in
  mkDF cols (map (fun d => map (fun c => lookup c d) cols) data).

(** The rows of a frame as records (what [orient="records"] lists). *)
Definition records (df : DataFrame) : list record :=
  map (fun r => combine (columns df) r) (rows df).

(** [pd.concat(objs, ignore_index=True)]: [ValueError] on an empty
    sequence; otherwise the rows stacked in order under the union of
    the column labels, aligned by label.  Labels are taken as distinct
    within a frame. *)
Definition concat (objs : list DataFrame) : result DataFrame :=
  match objs with
  | [] => Raise (Exc (ValueError "No objects to concatenate"))
  | _ =>
      let cols := union_labels (map columns objs) in
      Ok (mkDF cols
            (flat_map (fun df =>
               map (fun d => map (fun c => lookup c d) cols) (records df))
               objs))
  end.

(** [pd.read_html] on what the parser found: it returns a non-empty
    list of tables or raises; when the parser finds no table it raises
    [ValueError], it never returns an empty list. *)
Definition read_html (found : result (list DataFrame))
  : result (list DataFrame) :=
  match found with
  | Ok [] => Raise (Exc (ValueError "No tables found"))
  | r => r
  end.

(** The double quote character. *)
Definition dquote : ascii := ascii_of_nat 34.
Definition newline : string := String (ascii_of_nat 10) EmptyString.

Fixpoint double_quotes (s : string) : string :=
  match s with
  | EmptyString => EmptyString
  | String c r =>
      if Ascii.eqb c dquote then String c (String c (double_quotes r))
      else String c (double_quotes r)
  end.

(** The characters that make the CSV writer quote a field: the
    delimiter, the quote and the characters of the line terminator,
    which is the line feed ([os.linesep] on POSIX; a carriage return
    alone does not, [csv.writer] of Python 3.11). *)
Definition needs_quoting (c : ascii) : bool :=
  Ascii.eqb c "," || Ascii.eqb c dquote || Ascii.eqb c (ascii_of_nat 10).

(** One CSV field, quoted only when it has to be. *)
Definition csv_field (s : string) : string :=
  if negb (PyStr.all_chars (fun c => negb (needs_quoting c)) s)
  then (String dquote (double_quotes s) ++ String dquote EmptyString)%string
  else s.

Definition Z_to_string (z : Z) : string :=
  match z with
  | Z0 => "0"
  | Zpos p => NilEmpty.string_of_uint (Pos.to_uint p)
  | Zneg p => String "-" (NilEmpty.string_of_uint (Pos.to_uint p))
  end.

Definition value_text (v : value) : string :=
  match v with
  | VStr s => s
  | VInt z => Z_to_string z
  | VNone => EmptyString
  end.

(** One line of the CSV writer: the fields joined by commas; a row
    made of one empty field is written as a pair of quotes. *)
Definition csv_line (fields : list string) : string :=
  match fields with
  | [EmptyString] => String dquote (String dquote newline)
  | _ => (String.concat "," (map csv_field fields) ++ newline)%string
  end.

(** The header row of [df.to_csv(index=False)]: the column labels. *)
Definition csv_header (df : DataFrame) : list string := columns df.

(** [df.to_csv(index=False)]: the header row, then one line per row. *)
Definition to_csv (df : DataFrame) : string :=
  (csv_line (csv_header df)
   ++ String.concat EmptyString
        (map (fun r => csv_line (map value_text r)) (rows df)))%string.

End Pandas.

Module Pathlib.

(** The components of a POSIX path: empty components and [.] are
    dropped. *)
Definition parts (p : string) : list string :=
  filter (fun c => negb (String.eqb c EmptyString || String.eqb c "."))
         (PyStr.split "/" p).

(** [Path(p).name]: the last component, empty when there is none. *)
Definition name (p : string) : string := last (parts p) EmptyString.

(** [Path(p).stem]: the name without its last suffix; a dot that leads
    or ends the name starts no suffix (pathlib up to Python 3.13). *)
Definition stem (p : string) : string :=
  let n := name p in
  match PyStr.rfind "." n with
  | Some i => if (0 <? i) && (i <? String.length n - 1)
              then PyStr.take i n else n
  | None => n
  end.

(** The root of a POSIX path: two leading slashes are kept, one or
    three and more make the root [/]. *)
Definition root (p : string) : string :=
  match p with
  | String "/" (String "/" (String "/" _)) => "/"
  | String "/" (String "/" _) => "//"
  | String "/" _ => "/"
  | _ => EmptyString
  end.

(** [str(Path(p))]: the root and the components joined by slashes; the
    path without root and components is [.]. *)
Definition path_str (p : string) : string :=
  match (root p ++ String.concat "/" (parts p))%string with
  | EmptyString => "."
  | s => s
  end.

End Pathlib.

(** ** The program *)

Section Program.

Variable lib : Lib.

(** *** HTML getters *)

(** [r.raise_for_status()]: [HTTPError] for a status from 400 to 599. *)
Definition raise_for_status (status : Z) : M unit :=
  if ((400 <=? status) && (status <? 600))%Z
  then raise (Exc (LibraryError "HTTPError")) else ret tt.

Definition fetch_static_html (url : string) : M string :=
  r <- lift (requests_get lib url) ;;
  raise_for_status (fst r) ;;;
  ret (snd r).

(** [webdriver.Chrome(...)]: a browser session runs once it returns. *)
Definition webdriver_Chrome : M unit :=
  fun w => match chrome_launch lib with
           | Ok _ => (Ok tt, mkWorld (stdin w) (stdout w)
                                     (S (browsers w)) (files w))
           | Raise e => (Raise e, w)
           end.

(** [driver.quit()]: the session ends. *)
Definition driver_quit : M unit :=
  fun w => (Ok tt, mkWorld (stdin w) (stdout w)
                           (pred (browsers w)) (files w)).

Definition fetch_dynamic_html (url : string) (wait : nat) : M string :=
  _ <- lift (chromedriver_install lib) ;;
  webdriver_Chrome ;;;
  lift (driver_get lib url) ;;;
  lift (time_sleep lib wait) ;;;
  html <- lift (page_source lib url) ;;
  driver_quit ;;;
  ret html.

(** *** Extractors *)

Definition safe_read_html (html : string) : M (list DataFrame) :=
  if has_lxml lib || has_html5lib lib
  then lift (Pandas.read_html (html_tables lib html))
  else raise (Exc (ImportError "read_html needs lxml or html5lib")).

Definition extract_tables (html : string) : M (list DataFrame) :=
  safe_read_html html.

(** [for i, df in enumerate(dfs): print(...)] *)
Fixpoint print_previews (i : nat) (dfs : list DataFrame) : M unit :=
  match dfs with
  | [] => ret tt
  | df :: r => print (MsgPreview i df) ;;; print_previews (S i) r
  end.

(** [[int(x) for x in toks if x.strip().isdigit()]] *)
Fixpoint parse_indices (toks : list string) : result (list nat) :=
  match toks with
  | [] => Ok []
  | x :: r =>
      if PyStr.isdigit (PyStr.strip x) then
        match PyStr.int x with
        | None => Raise (Exc (ValueError "invalid literal for int()"))
        | Some i =>
            match parse_indices r with
            | Ok l => Ok (i :: l)
            | Raise e => Raise e
            end
        end
      else parse_indices r
  end.

(** [[dfs[i] for i in idxs if i < len(dfs)]] *)
Fixpoint pick (dfs : list DataFrame) (idxs : list nat) : list DataFrame :=
  match idxs with
  | [] => []
  | i :: r =>
      match nth_error dfs i with
      | Some df => df :: pick dfs r
      | None => pick dfs r
      end
  end.

Definition choose_tables (dfs : list DataFrame) : M DataFrame :=
  match dfs with
  | [] => print MsgNoTables ;;; sys_exit 1
  | first :: _ =>
      print (MsgTablesFound (length dfs)) ;;;
      print_previews 0 dfs ;;;
      line <- input ;;
      let sel := PyStr.strip line in
      if String.eqb sel EmptyString then lift (Pandas.concat [first])
      else if String.eqb (PyStr.lower sel) "all" then lift (Pandas.concat dfs)
      else
        idxs <- lift (parse_indices (PyStr.split "," sel)) ;;
        lift (Pandas.concat (pick dfs idxs))
  end.

Definition opt_value (o : option string) : value :=
  match o with
  | Some s => VStr s
  | None => VNone
  end.

Definition extract_links (soup : Soup lib) : DataFrame :=
  Pandas.DataFrame_of
    (map (fun a => [("text", VStr (get_text lib a EmptyString));
                    ("href", opt_value (get_attr lib a "href"))])
         (find_all lib soup "a")).

Definition extract_paragraphs (soup : Soup lib) : DataFrame :=
  Pandas.DataFrame_of
    (map (fun p => [("paragraph", VStr (get_text lib p " "))])
         (find_all lib soup "p")).

(** [soup.select(selector)] *)
Definition soup_select (soup : Soup lib) (selector : string)
  : result (list (Elem lib)) :=
  if selector_valid lib selector
  then Ok (select_matches lib soup selector)
  else Raise (Exc (LibraryError "SelectorSyntaxError")).

Definition extract_by_css (soup : Soup lib) (selector : string)
  : M DataFrame :=
  elems <- lift (soup_select soup selector) ;;
  ret (Pandas.DataFrame_of
         (map (fun e => [("selector", VStr selector);
                         ("text", VStr (get_text lib e " "))])
              elems)).

(** *** Save *)

(** The path [save_df] writes to, [Path(f"{base}.{fmt}")] with
    [base = Path(base_name).stem]. *)
Definition output_name (fmt base_name : string) : string :=
  Pathlib.path_str (Pathlib.stem base_name ++ "." ++ fmt)%string.

(** Writing a file, an existing one replaced; the exception of the
    file system when the path cannot be opened, and then no file. *)
Definition write_file (fn content : string) : M unit :=
  fun w => match open_w lib fn with
           | Ok _ => (Ok tt, mkWorld (stdin w) (stdout w) (browsers w)
                                     ((fn, content) :: files w))
           | Raise e => (Raise e, w)
           end.

Definition save_df (df : DataFrame) (fmt base_name : string) : M unit :=
  let fn := output_name fmt base_name in
  (if String.eqb fmt "csv" then write_file fn (Pandas.to_csv df)
   else (text <- lift (to_json lib df) ;; write_file fn text)) ;;;
  print (MsgSaved fn).

(** *** Main flow *)

(** [x or d] on strings *)
Definition or_default (x d : string) : string :=
  if String.eqb x EmptyString then d else x.

(** The render flag read from the third prompt. *)
Definition render_flag (answer : string) : bool :=
  String.eqb (PyStr.lower (PyStr.strip answer)) "e".

(** [fetch_dynamic_html(url) if js else fetch_static_html(url)] *)
Definition fetch_html (js : bool) (url : string) : M string :=
  if js then fetch_dynamic_html url 8 else fetch_static_html url.

(** The dispatch on the mode in [main], [if what == "1": ... else: ...]. *)
Definition extract (what html : string) (soup : Soup lib) : M DataFrame :=
  if String.eqb what "1" then
    dfs <- extract_tables html ;; choose_tables dfs
  else if String.eqb what "2" then ret (extract_links soup)
  else if String.eqb what "3" then ret (extract_paragraphs soup)
  else if String.eqb what "4" then
    line <- input ;; extract_by_css soup (PyStr.strip line)
  else print MsgInvalidChoice ;;; sys_exit 1.

Definition main : M unit :=
  l1 <- input ;;
  let url := PyStr.strip l1 in
  l2 <- input ;;
  let what := PyStr.strip l2 in
  l3 <- input ;;
  let js := render_flag l3 in
  html <- fetch_html js url ;;
  soup <- lift (BeautifulSoup lib html) ;;
  df <- extract what html soup ;;
  l4 <- input ;;
  let fmt := or_default (PyStr.lower (PyStr.strip l4)) "csv" in
  l5 <- input ;;
  let name := or_default (PyStr.strip l5) "extracted" in
  save_df df fmt name.

(** What [main] does once the page text is there. *)
Definition finish (what html : string) (soup : Soup lib) : M unit :=
  df <- extract what html soup ;;
  l4 <- input ;;
  let fmt := or_default (PyStr.lower (PyStr.strip l4)) "csv" in
  l5 <- input ;;
  let name := or_default (PyStr.strip l5) "extracted" in
  save_df df fmt name.

Definition after_fetch (what html : string) : M unit :=
  soup <- lift (BeautifulSoup lib html) ;;
  finish what html soup.

(** The [__main__] block: the exit status of the process and the world
    it leaves.  [SystemExit] passes both handlers and sets the status;
    after either handler the script runs to its end, status 0. *)
Definition run (w : World) : Z * World :=
  match main w with
  | (Ok _, w') => (0%Z, w')
  | (Raise KeyboardInterrupt, w') => (0%Z, snd (print MsgCancelled w'))
  | (Raise (Exc e), w') => (0%Z, snd (print (MsgError e) w'))
  | (Raise (SystemExit code), w') => (code, w')
  end.

End Program.

(** ** A small library instance for concrete runs

    Pages are given by name: the body served for a URL is the URL's
    text.  Elements carry their tag, text and [href]; a selector is a
    tag name, and anything but lower-case letters is a syntax error. *)

Module Sample.

Record elem : Type := mkElem {
  tag : string;
  text : string;
  href : option string
}.

Definition is_lower_letter (c : ascii) : bool :=
  let n := nat_of_ascii c in (97 <=? n) && (n <=? 122).

Definition tag_selector (s : string) : bool :=
  negb (String.eqb s EmptyString) && PyStr.all_chars is_lower_letter s.

Definition page : list elem :=
  [ mkElem "a" "Home" (Some "/");
    mkElem "p" "First paragraph" None;
    mkElem "a" "Anchor" None;
    mkElem "p" "Second" None ].

Definition table (label : string) (n : Z) : DataFrame :=
  mkDF ["name"; "rank"] [[VStr label; VInt n]].

Definition three_tables : list DataFrame :=
  [table "a" 0; table "b" 1; table "c" 2].

(** The number of bytes of a name in UTF-8. *)
Definition utf8_length (s : string) : nat :=
  String.length s
  + List.length (filter (fun c => 128 <=? nat_of_ascii c)
                        (list_ascii_of_string s)).

(** The file system: a working directory without subdirectories and
    with a parent that is not writable.  A path without NUL character
    opens for writing when it is a plain name of at most 255 bytes. *)
Definition has_nul (fn : string) : bool :=
  negb (PyStr.all_chars (fun c => negb (Ascii.eqb c (ascii_of_nat 0))) fn).

Definition writable (fn : string) : bool :=
  PyStr.all_chars (fun c => negb (Ascii.eqb c "/")) fn
  && negb (String.eqb fn EmptyString)
  && negb (String.eqb fn ".") && negb (String.eqb fn "..")
  && (utf8_length fn <=? 255).

(** The library: [tables] is what the table parser finds on every
    page, [status] the HTTP status of every response, [nav] the outcome
    of every browser navigation. *)
Definition lib (tables : list DataFrame) (status : Z) (nav : result unit)
  : Lib :=
  {| requests_get := fun url => Ok (status, url);
     chromedriver_install := Ok "chromedriver";
     chrome_launch := Ok tt;
     driver_get := fun _ => nav;
     time_sleep := fun _ => Ok tt;
     page_source := fun url => Ok url;
     has_lxml := true;
     has_html5lib := false;
     html_tables := fun _ => Ok tables;
     Soup := list elem;
     Elem := elem;
     BeautifulSoup := fun _ => Ok page;
     find_all := fun soup n => filter (fun e => String.eqb (tag e) n) soup;
     selector_valid := tag_selector;
     select_matches :=
       fun soup sel => filter (fun e => String.eqb (tag e) sel) soup;
     get_text := fun e _ => text e;
     get_attr := fun e _ => href e;
     to_json := fun _ => Ok "[]";
     open_w := fun fn =>
                 if has_nul fn
                 then Raise (Exc (ValueError "embedded null byte"))
                 else if writable fn then Ok tt
                 else Raise (Exc (LibraryError "OSError")) |}.

(** A world whose standard input holds the given lines. *)
Definition world (lines : list string) : World :=
  mkWorld (map Line lines) [] 0 [].

End Sample.

(** ** Vocabulary of the statements *)

(** The world with its standard input replaced. *)
Definition set_stdin (l : list stdin_item) (w : World) : World :=
  mkWorld l (stdout w) (browsers w) (files w).

(** The parts of the world a computation leaves alone. *)
Definition same_io (w w' : World) : Prop :=
  stdin w' = stdin w /\ stdout w' = stdout w /\ files w' = files w.

(** A token that selects no table of [n]: not a number, or a number
    that is not below [n]. *)
Definition selects_nothing (n : nat) (x : string) : Prop :=
  PyStr.isdigit (PyStr.strip x) = false
  \/ exists i, PyStr.int x = Some i /\ n <= i.

(** Every record of the frame has exactly the fields [ks], in order. *)
Definition has_fields (ks : list string) (df : DataFrame) : Prop :=
  Forall (fun r => map fst r = ks) (Pandas.records df).

(** A run of whitespace. *)
Definition spaces (s : string) : Prop :=
  PyStr.all_chars PyStr.is_space s = true.

(** The character [c] does not occur in [s]. *)
Definition lacks (c : ascii) (s : string) : Prop :=
  PyStr.all_chars (fun x => negb (Ascii.eqb x c)) s = true.

(** A frame whose column labels are distinct and whose rows have one
    value per column. *)
Definition well_formed (df : DataFrame) : Prop :=
  NoDup (columns df)
  /\ Forall (fun r => length r = length (columns df)) (rows df).

(** The computation leaves the component [f] of the world as it finds
    it, whether it returns or raises. *)
Definition keeps {X A : Type} (f : World -> X) (m : M A) : Prop :=
  forall w, f (snd (m w)) = f w.

(** The computation writes exactly one file when it returns and none
    when it raises. *)
Definition writes_one_or_none (m : M unit) : Prop :=
  forall w,
    match m w with
    | (Ok _, w') => exists fn content, files w' = (fn, content) :: files w
    | (Raise _, w') => files w' = files w
    end.

(** The previews [choose_tables] prints for the tables [dfs]. *)
Definition previews (dfs : list DataFrame) : list message :=
  map (fun p => MsgPreview (fst p) (snd p))
      (combine (seq 0 (length dfs)) dfs).

(** Tables that all have the columns [ks] and are well formed. *)
Definition uniform (ks : list string) (dfs : list DataFrame) : Prop :=
  Forall (fun df => columns df = ks /\ well_formed df) dfs.

(** The rows the index [i] selects: those of table [i], none when [i]
    is out of range. *)
Definition rows_at (dfs : list DataFrame) (i : nat) : list (list value) :=
  match nth_error dfs i with
  | Some df => rows df
  | None => []
  end.

(** ** Properties *)

(** *** Generic facts about the monad *)

Lemma bind_ok {A B} (m : M A) (k : A -> M B) w a w' :
  m w = (Ok a, w') -> bind m k w = k a w'.
Proof. intros H. unfold bind. now rewrite H. Qed.

Lemma input_line w s rest :
  stdin w = Line s :: rest ->
  input w = (Ok s, mkWorld rest (stdout w) (browsers w) (files w)).
Proof. intros H. unfold input. now rewrite H. Qed.

(** *** The top-level handler *)

(** C1: an exception that reaches the top level is caught and printed,
    and the process then ends with exit status 0, not with a failure
    status. *)
Theorem run_exception_status (lib : Lib) (w w' : World) (e : Exception) :
  main lib w = (Raise (Exc e), w') ->
  run lib w
  = (0%Z, mkWorld (stdin w') (stdout w' ++ [MsgError e])
                  (browsers w') (files w')).
Proof.
  intros H. unfold run. rewrite H. reflexivity.
Qed.

(** A run against a server that answers 404: the error is printed and
    the exit status is 0. *)
Lemma run_exception_status_witness :
  main (Sample.lib [] 404 (Ok tt))
       (Sample.world ["http://example.org"; "2"; "h"])
  = (Raise (Exc (LibraryError "HTTPError")), mkWorld [] [] 0 [])
  /\ run (Sample.lib [] 404 (Ok tt))
         (Sample.world ["http://example.org"; "2"; "h"])
     = (0%Z, mkWorld [] [MsgError (LibraryError "HTTPError")] 0 []).
Proof.
  split.
  - reflexivity.
  - apply (run_exception_status (Sample.lib [] 404 (Ok tt))
             (Sample.world ["http://example.org"; "2"; "h"])
             (mkWorld [] [] 0 []) (LibraryError "HTTPError")).
    reflexivity.
Defined.

(** The sibling failure paths end with status 1. *)
Lemma run_system_exit (lib : Lib) (w w' : World) (code : Z) :
  main lib w = (Raise (SystemExit code), w') -> run lib w = (code, w').
Proof. intros H. unfold run. now rewrite H. Qed.

(** *** The dynamic fetch path *)

(** On the path without exception the browser session is ended. *)
Lemma fetch_dynamic_html_ok (lib : Lib) url wait w p html :
  chromedriver_install lib = Ok p ->
  chrome_launch lib = Ok tt ->
  driver_get lib url = Ok tt ->
  time_sleep lib wait = Ok tt ->
  page_source lib url = Ok html ->
  fetch_dynamic_html lib url wait w
  = (Ok html, mkWorld (stdin w) (stdout w) (browsers w) (files w)).
Proof.
  intros Hi Hl Hg Hs Hp.
  unfold fetch_dynamic_html, bind, lift, webdriver_Chrome, driver_quit, ret.
  rewrite Hi, Hl, Hg, Hs, Hp. reflexivity.
Qed.

(** C2: when navigation, the wait or the capture of the page source
    raises, the exception leaves [fetch_dynamic_html] with the browser
    session still running: [driver.quit()] is reached on the path
    without exception only. *)
Theorem fetch_dynamic_html_leaks_on_error (lib : Lib) url wait w p e :
  chromedriver_install lib = Ok p ->
  chrome_launch lib = Ok tt ->
  driver_get lib url = Raise e
  \/ (driver_get lib url = Ok tt /\ time_sleep lib wait = Raise e)
  \/ (driver_get lib url = Ok tt /\ time_sleep lib wait = Ok tt
      /\ page_source lib url = Raise e) ->
  fetch_dynamic_html lib url wait w
  = (Raise e, mkWorld (stdin w) (stdout w) (S (browsers w)) (files w)).
Proof.
  intros Hi Hl H.
  unfold fetch_dynamic_html, bind, lift, webdriver_Chrome.
  rewrite Hi, Hl.
  destruct H as [Hg | [[Hg Hs] | [Hg [Hs Hp]]]].
  - now rewrite Hg.
  - now rewrite Hg, Hs.
  - now rewrite Hg, Hs, Hp.
Qed.

Lemma fetch_dynamic_html_leaks_on_error_witness :
  driver_get
    (Sample.lib [] 200 (Raise (Exc (LibraryError "WebDriverException"))))
    "http://example.org"
  = Raise (Exc (LibraryError "WebDriverException"))
  /\ fetch_dynamic_html
       (Sample.lib [] 200 (Raise (Exc (LibraryError "WebDriverException"))))
       "http://example.org" 8 (mkWorld [] [] 0 [])
     = (Raise (Exc (LibraryError "WebDriverException")),
        mkWorld [] [] 1 []).
Proof.
  split.
  - reflexivity.
  - apply (fetch_dynamic_html_leaks_on_error
             (Sample.lib [] 200
                (Raise (Exc (LibraryError "WebDriverException"))))
             "http://example.org" 8 (mkWorld [] [] 0 []) "chromedriver"
             (Exc (LibraryError "WebDriverException")));
      try reflexivity.
    now left.
Defined.

(** *** Table disambiguation *)

Lemma print_previews_run dfs i w :
  print_previews i dfs w
  = (Ok tt,
     mkWorld (stdin w)
             (stdout w ++ map (fun p => MsgPreview (fst p) (snd p))
                              (combine (seq i (length dfs)) dfs))
             (browsers w) (files w)).
Proof.
  revert i w. induction dfs as [|df r IH]; intros i w; simpl.
  - unfold ret. rewrite app_nil_r. now destruct w.
  - unfold bind, print at 1. simpl. rewrite IH. simpl.
    now rewrite <- app_assoc.
Qed.

Lemma parse_indices_out_of_range n toks :
  Forall (selects_nothing n) toks ->
  exists idxs, parse_indices toks = Ok idxs /\ Forall (fun i => n <= i) idxs.
Proof.
  induction 1 as [|x r Hx _ IH]; simpl.
  - now exists [].
  - destruct IH as [idxs [Hp Hall]].
    destruct Hx as [Hd | [i [Hi Hle]]].
    + rewrite Hd. now exists idxs.
    + destruct (PyStr.isdigit (PyStr.strip x)).
      * rewrite Hi, Hp. exists (i :: idxs). split; [reflexivity|].
        now constructor.
      * now exists idxs.
Qed.

Lemma pick_out_of_range dfs idxs :
  Forall (fun i => length dfs <= i) idxs -> pick dfs idxs = [].
Proof.
  induction 1 as [|i r Hi _ IH]; simpl; [reflexivity|].
  apply nth_error_None in Hi. now rewrite Hi.
Qed.

(** C3: with at least one table parsed, a selection that is neither
    empty nor [all] and whose tokens select no table does not give an
    empty table: [pd.concat] is called on an empty list and
    [choose_tables] raises [ValueError]. *)
Theorem choose_tables_no_valid_index
  (dfs : list DataFrame) (w : World) (line : string)
  (rest : list stdin_item) :
  dfs <> [] ->
  stdin w = Line line :: rest ->
  PyStr.strip line <> EmptyString ->
  PyStr.lower (PyStr.strip line) <> "all" ->
  Forall (selects_nothing (length dfs))
         (PyStr.split "," (PyStr.strip line)) ->
  fst (choose_tables dfs w)
  = Raise (Exc (ValueError "No objects to concatenate")).
Proof.
  intros Hne Hin Hsel Hall Htoks.
  destruct dfs as [|first more]; [contradiction|].
  destruct (parse_indices_out_of_range _ _ Htoks) as [idxs [Hp Hge]].
  apply pick_out_of_range in Hge.
  unfold choose_tables.
  unfold bind at 1. unfold print at 1. cbv beta iota.
  unfold bind at 1. rewrite print_previews_run.
  unfold bind at 1. rewrite (input_line _ line rest) by exact Hin.
  apply String.eqb_neq in Hsel. rewrite Hsel.
  apply String.eqb_neq in Hall. rewrite Hall.
  unfold bind, lift. rewrite Hp, Hge. reflexivity.
Qed.

(** Selection [5] on three tables. *)
Lemma choose_tables_no_valid_index_witness :
  Forall (selects_nothing 3) (PyStr.split "," (PyStr.strip "5"))
  /\ fst (choose_tables Sample.three_tables (Sample.world ["5"]))
     = Raise (Exc (ValueError "No objects to concatenate")).
Proof.
  assert (H : Forall (selects_nothing 3)
                (PyStr.split "," (PyStr.strip "5"))).
  { constructor; [|constructor]. right. exists 5. split; [reflexivity|lia]. }
  split; [exact H|].
  apply (choose_tables_no_valid_index
           Sample.three_tables (Sample.world ["5"]) "5" []).
  - discriminate.
  - reflexivity.
  - discriminate.
  - discriminate.
  - exact H.
Defined.

(** *** The main flow up to the extraction *)

Lemma fetch_html_same_io (lib : Lib) js url w :
  same_io w (snd (fetch_html lib js url w)).
Proof.
  unfold same_io, fetch_html.
  destruct js.
  - unfold fetch_dynamic_html, bind, lift, webdriver_Chrome, driver_quit, ret.
    destruct (chromedriver_install lib); simpl; auto.
    destruct (chrome_launch lib); simpl; auto.
    destruct (driver_get lib url); simpl; auto.
    destruct (time_sleep lib 8); simpl; auto.
    destruct (page_source lib url); simpl; auto.
  - unfold fetch_static_html, bind, lift, raise_for_status, raise, ret.
    destruct (requests_get lib url) as [[st body]|e]; simpl; auto.
    destruct ((400 <=? st) && (st <? 600))%Z; simpl; auto.
Qed.

Lemma extract_tables_pure (lib : Lib) html w :
  snd (extract_tables lib html w) = w.
Proof.
  unfold extract_tables, safe_read_html.
  destruct (has_lxml lib || has_html5lib lib); reflexivity.
Qed.

Lemma main_unfold (lib : Lib) w l1 l2 l3 rest :
  stdin w = Line l1 :: Line l2 :: Line l3 :: rest ->
  main lib w
  = bind (fetch_html lib (render_flag l3) (PyStr.strip l1))
         (after_fetch lib (PyStr.strip l2)) (set_stdin rest w).
Proof.
  intros H. unfold main.
  unfold bind at 1. rewrite (input_line w l1 _ H).
  unfold bind at 1. unfold input at 1. cbn [stdin stdout browsers files].
  unfold bind at 1. unfold input at 1. cbn [stdin stdout browsers files].
  reflexivity.
Qed.

Lemma main_after_fetch (lib : Lib) w l1 l2 l3 rest html w1 soup :
  stdin w = Line l1 :: Line l2 :: Line l3 :: rest ->
  fetch_html lib (render_flag l3) (PyStr.strip l1) (set_stdin rest w)
  = (Ok html, w1) ->
  BeautifulSoup lib html = Ok soup ->
  main lib w = finish lib (PyStr.strip l2) html soup w1
  /\ stdin w1 = rest /\ stdout w1 = stdout w /\ files w1 = files w.
Proof.
  intros Hin Hf Hs. split.
  - rewrite (main_unfold lib w l1 l2 l3 rest Hin).
    rewrite (bind_ok _ _ _ _ _ Hf).
    unfold after_fetch, bind at 1, lift. now rewrite Hs.
  - pose proof (fetch_html_same_io lib (render_flag l3) (PyStr.strip l1)
                  (set_stdin rest w)) as Hio.
    rewrite Hf in Hio. exact Hio.
Qed.

(** *** TABLES mode without tables *)

(** [pd.read_html] never hands an empty list to [choose_tables]. *)
Lemma extract_tables_never_empty (lib : Lib) html w :
  fst (extract_tables lib html w) <> Ok [].
Proof.
  unfold extract_tables, safe_read_html, lift, raise, Pandas.read_html.
  destruct (has_lxml lib || has_html5lib lib); simpl; [|discriminate].
  destruct (html_tables lib html) as [[|df r]|e]; discriminate.
Qed.

Lemma run_exception (lib : Lib) (w w' : World) (e : Exception) :
  main lib w = (Raise (Exc e), w') ->
  run lib w = (0%Z, snd (print (MsgError e) w')).
Proof. intros H. unfold run. now rewrite H. Qed.

(** C5: in TABLES mode, on a page in which the table parser finds no
    table, [pd.read_html] raises [ValueError]: the gate of
    [choose_tables] on an empty list is not reached, the exception is
    printed by the top-level handler and the process exits with
    status 0, not 1.  No file is written. *)
Theorem run_page_without_tables (lib : Lib) w l1 l2 l3 rest html w1 soup :
  stdin w = Line l1 :: Line l2 :: Line l3 :: rest ->
  PyStr.strip l2 = "1" ->
  fetch_html lib (render_flag l3) (PyStr.strip l1) (set_stdin rest w)
  = (Ok html, w1) ->
  BeautifulSoup lib html = Ok soup ->
  has_lxml lib || has_html5lib lib = true ->
  html_tables lib html = Ok [] ->
  run lib w
  = (0%Z,
     mkWorld rest (stdout w ++ [MsgError (ValueError "No tables found")])
             (browsers w1) (files w)).
Proof.
  intros Hin Hmode Hf Hs Hb Ht.
  destruct (main_after_fetch lib w l1 l2 l3 rest html w1 soup Hin Hf Hs)
    as [Hmain [Hi [Ho Hfi]]].
  rewrite (run_exception lib w w1 (ValueError "No tables found")).
  - unfold print. simpl. now rewrite Hi, Ho, Hfi.
  - rewrite Hmain. unfold finish, extract. rewrite Hmode.
    simpl String.eqb. cbv iota.
    unfold bind, extract_tables, safe_read_html, lift.
    now rewrite Hb, Ht.
Qed.

Lemma run_page_without_tables_witness :
  run (Sample.lib [] 200 (Ok tt))
      (Sample.world ["http://example.org"; "1"; "h"; "json"; "out"])
  = (0%Z, mkWorld [Line "json"; Line "out"]
                  [MsgError (ValueError "No tables found")] 0 []).
Proof.
  apply (run_page_without_tables (Sample.lib [] 200 (Ok tt))
           (Sample.world ["http://example.org"; "1"; "h"; "json"; "out"])
           "http://example.org" "1" "h" [Line "json"; Line "out"]
           "http://example.org"
           (mkWorld [Line "json"; Line "out"] [] 0 []) Sample.page);
    reflexivity.
Defined.

(** *** Frames built from uniform records *)

Lemma fold_add_labels_const {A} (ks : list string) (xs : list A) :
  Pandas.add_labels ks ks = ks ->
  fold_left Pandas.add_labels (map (fun _ => ks) xs) ks = ks.
Proof.
  intros H. induction xs as [|x r IH]; simpl; [reflexivity|].
  now rewrite H.
Qed.

Lemma union_labels_const {A} (ks : list string) (xs : list A) :
  Pandas.add_labels [] ks = ks ->
  Pandas.add_labels ks ks = ks ->
  Pandas.union_labels (map (fun _ => ks) xs)
  = match xs with [] => [] | _ => ks end.
Proof.
  intros H0 H1. destruct xs as [|x r]; [reflexivity|].
  unfold Pandas.union_labels. simpl. rewrite H0.
  now apply fold_add_labels_const.
Qed.

Lemma lookup_skip k v d c :
  c <> k -> Pandas.lookup c ((k, v) :: d) = Pandas.lookup c d.
Proof.
  intros H. simpl. apply String.eqb_neq in H. now rewrite H.
Qed.

Lemma combine_lookup (d : Pandas.record) :
  NoDup (map fst d) ->
  combine (map fst d) (map (fun c => Pandas.lookup c d) (map fst d)) = d.
Proof.
  induction d as [|[k v] d IH]; intros Hnd; [reflexivity|].
  inversion Hnd as [|x l Hnotin Hnd' Heq]; subst.
  cbn [map fst combine]. simpl Pandas.lookup at 1.
  rewrite String.eqb_refl. f_equal.
  rewrite <- (IH Hnd') at 3. f_equal.
  apply map_ext_in. intros c Hc. apply lookup_skip.
  intros ->. now apply Hnotin.
Qed.

(** A frame built from records that all have the keys [ks], each once,
    lists exactly these records. *)
Lemma records_DataFrame_of (ks : list string) (data : list Pandas.record) :
  NoDup ks ->
  Pandas.add_labels [] ks = ks ->
  Pandas.add_labels ks ks = ks ->
  Forall (fun d => map fst d = ks) data ->
  Pandas.records (Pandas.DataFrame_of data) = data
  /\ columns (Pandas.DataFrame_of data)
     = match data with [] => [] | _ => ks end.
Proof.
  intros Hnd H0 H1 Hall.
  assert (Hcols : Pandas.union_labels (map (map fst) data)
                  = match data with [] => [] | _ => ks end).
  { rewrite <- (union_labels_const ks data H0 H1).
    f_equal. apply map_ext_in. intros d Hd.
    now apply (proj1 (Forall_forall _ _) Hall). }
  split; [|exact Hcols].
  unfold Pandas.records, Pandas.DataFrame_of. cbn [columns rows].
  rewrite Hcols. destruct data as [|d0 r]; [reflexivity|].
  rewrite map_map.
  rewrite <- (map_id (d0 :: r)) at 2.
  apply map_ext_in. intros d Hd.
  pose proof (proj1 (Forall_forall _ _) Hall d Hd) as Hk.
  rewrite <- Hk. apply combine_lookup. now rewrite Hk.
Qed.

Lemma has_fields_DataFrame_of {A} (ks : list string)
      (f : A -> Pandas.record) (xs : list A) :
  NoDup ks ->
  Pandas.add_labels [] ks = ks ->
  Pandas.add_labels ks ks = ks ->
  (forall x, map fst (f x) = ks) ->
  has_fields ks (Pandas.DataFrame_of (map f xs)).
Proof.
  intros Hnd H0 H1 Hf.
  assert (Hall : Forall (fun d => map fst d = ks) (map f xs)).
  { apply Forall_forall. intros d Hd. apply in_map_iff in Hd.
    destruct Hd as [x [<- _]]. apply Hf. }
  unfold has_fields.
  now rewrite (proj1 (records_DataFrame_of ks (map f xs) Hnd H0 H1 Hall)).
Qed.

Lemma NoDup_2 (a b : string) : a <> b -> NoDup [a; b].
Proof.
  intros H. constructor.
  - intros [Hin|[]]. now apply H.
  - constructor; [intros []|constructor].
Qed.

Lemma NoDup_1 (a : string) : NoDup [a].
Proof. constructor; [intros []|constructor]. Qed.

(** C8: in the LINKS, PARAGRAPHS and CSS_SELECTOR modes every record of
    the result has the fields of the mode's schema: text and href,
    paragraph, and selector and text. *)
Theorem extractors_fixed_schema (lib : Lib) (soup : Soup lib)
        (selector : string) (w : World) :
  has_fields ["text"; "href"] (extract_links lib soup)
  /\ has_fields ["paragraph"] (extract_paragraphs lib soup)
  /\ match fst (extract_by_css lib soup selector w) with
     | Ok df => has_fields ["selector"; "text"] df
     | Raise _ => True
     end.
Proof.
  split; [|split].
  - unfold extract_links. apply has_fields_DataFrame_of; try reflexivity.
    apply NoDup_2. discriminate.
  - unfold extract_paragraphs. apply has_fields_DataFrame_of;
      try reflexivity.
    apply NoDup_1.
  - unfold extract_by_css, bind, lift, soup_select.
    destruct (selector_valid lib selector); simpl; [|exact I].
    apply has_fields_DataFrame_of; try reflexivity.
    apply NoDup_2. discriminate.
Qed.

Example extract_links_sample :
  Pandas.records
    (extract_links (Sample.lib [] 200 (Ok tt)) Sample.page)
  = [ [("text", VStr "Home"); ("href", VStr "/")];
      [("text", VStr "Anchor"); ("href", VNone)] ].
Proof. reflexivity. Qed.

(** *** CSS_SELECTOR mode *)

Lemma extract_by_css_no_match (lib : Lib) (soup : Soup lib) selector w :
  selector_valid lib selector = true ->
  select_matches lib soup selector = [] ->
  extract_by_css lib soup selector w = (Ok (mkDF [] []), w).
Proof.
  intros Hv Hm. unfold extract_by_css, bind, lift, soup_select.
  rewrite Hv, Hm. reflexivity.
Qed.



Lemma save_df_csv (lib : Lib) df base_name w :
  open_w lib (output_name "csv" base_name) = Ok tt ->
  save_df lib df "csv" base_name w
  = (Ok tt,
     mkWorld (stdin w)
             (stdout w ++ [MsgSaved (output_name "csv" base_name)])
             (browsers w)
             ((output_name "csv" base_name, Pandas.to_csv df) :: files w)).
Proof.
  intros Ho. unfold save_df, bind, write_file, print. simpl String.eqb.
  cbv iota. now rewrite Ho.
Qed.






(** *** CSV output of an empty result *)

(** With at least one element selected the header row is the schema. *)
Lemma extract_by_css_header (lib : Lib) (soup : Soup lib) selector w :
  selector_valid lib selector = true ->
  select_matches lib soup selector <> [] ->
  exists df, extract_by_css lib soup selector w = (Ok df, w)
             /\ Pandas.csv_header df = ["selector"; "text"].
Proof.
  intros Hv Hm. unfold extract_by_css, bind, lift, soup_select.
  rewrite Hv. eexists. split; [reflexivity|].
  unfold Pandas.csv_header.
  destruct (select_matches lib soup selector) as [|e r]; [contradiction|].
  set (f := fun e0 : Elem lib =>
              [("selector", VStr selector);
               ("text", VStr (get_text lib e0 " "))]).
  assert (Hall : Forall (fun d => map fst d = ["selector"; "text"])
                        (map f (e :: r))).
  { apply Forall_forall. intros d Hd. apply in_map_iff in Hd.
    now destruct Hd as [x [<- _]]. }
  apply (records_DataFrame_of ["selector"; "text"] (map f (e :: r))) in Hall;
    try reflexivity.
  - exact (proj2 Hall).
  - apply NoDup_2. discriminate.
Qed.

(** C10: a result without records (no anchor, no paragraph, no element
    matching the selector) is a frame without columns; written as CSV
    to a path that can be opened it gives a file made of one empty
    line: the header row holds no field name. *)
Theorem csv_of_empty_result (lib : Lib) (soup : Soup lib)
        (selector base_name : string) (w : World) :
  (find_all lib soup "a" = [] ->
   Pandas.csv_header (extract_links lib soup) = []
   /\ Pandas.to_csv (extract_links lib soup) = Pandas.newline)
  /\ (find_all lib soup "p" = [] ->
      Pandas.csv_header (extract_paragraphs lib soup) = []
      /\ Pandas.to_csv (extract_paragraphs lib soup) = Pandas.newline)
  /\ (selector_valid lib selector = true ->
      select_matches lib soup selector = [] ->
      open_w lib (output_name "csv" base_name) = Ok tt ->
      exists df,
        extract_by_css lib soup selector w = (Ok df, w)
        /\ Pandas.csv_header df = []
        /\ save_df lib df "csv" base_name w
           = (Ok tt,
              mkWorld (stdin w)
                (stdout w ++ [MsgSaved (output_name "csv" base_name)])
                (browsers w)
                ((output_name "csv" base_name, Pandas.newline) :: files w))).
Proof.
  split; [|split].
  - intros H. unfold extract_links. now rewrite H.
  - intros H. unfold extract_paragraphs. now rewrite H.
  - intros Hv Hm Ho. exists (mkDF [] []). split; [|split].
    + now apply extract_by_css_no_match.
    + reflexivity.
    + now rewrite (save_df_csv lib _ _ _ Ho).
Qed.

Lemma csv_of_empty_result_witness :
  exists df,
    extract_by_css (Sample.lib [] 200 (Ok tt)) Sample.page "table"
                   (Sample.world [])
    = (Ok df, Sample.world [])
    /\ Pandas.csv_header df = []
    /\ save_df (Sample.lib [] 200 (Ok tt)) df "csv" "out.txt"
               (Sample.world [])
       = (Ok tt,
          mkWorld [] [MsgSaved "out.csv"] 0 [("out.csv", Pandas.newline)]).
Proof.
  apply (csv_of_empty_result (Sample.lib [] 200 (Ok tt)) Sample.page
           "table" "out.txt" (Sample.world [])); reflexivity.
Defined.

(** *** The render flag *)

Lemma lstrip_prefix s :
  exists pre, s = (pre ++ PyStr.lstrip s)%string /\ spaces pre.
Proof.
  induction s as [|c r IH]; simpl.
  - now exists EmptyString.
  - destruct (PyStr.is_space c) eqn:Hc.
    + destruct IH as [pre [Heq Hsp]]. exists (String c pre). split.
      * simpl. now rewrite <- Heq.
      * unfold spaces. simpl. now rewrite Hc.
    + now exists EmptyString.
Qed.

Lemma rstrip_suffix s :
  exists post, s = (PyStr.rstrip s ++ post)%string /\ spaces post.
Proof.
  induction s as [|c r IH]; simpl.
  - now exists EmptyString.
  - destruct IH as [post [Heq Hsp]].
    destruct (PyStr.rstrip r) as [|c' r'] eqn:Hr.
    + destruct (PyStr.is_space c) eqn:Hc.
      * exists (String c r). split; [reflexivity|].
        unfold spaces. simpl. rewrite Hc. simpl in Heq. now rewrite Heq.
      * exists post. split; [|exact Hsp]. simpl. now rewrite Heq at 1.
    + exists post. split; [|exact Hsp]. simpl. now rewrite Heq at 1.
Qed.

Lemma lstrip_spaces_app pre t :
  spaces pre -> PyStr.lstrip (pre ++ t)%string = PyStr.lstrip t.
Proof.
  unfold spaces. induction pre as [|c r IH]; simpl; [reflexivity|].
  intros H. apply andb_true_iff in H. destruct H as [Hc Hr].
  rewrite Hc. now apply IH.
Qed.

Lemma rstrip_spaces post : spaces post -> PyStr.rstrip post = EmptyString.
Proof.
  unfold spaces. induction post as [|c r IH]; simpl; [reflexivity|].
  intros H. apply andb_true_iff in H. destruct H as [Hc Hr].
  rewrite (IH Hr). now rewrite Hc.
Qed.

Lemma lower_char_e c :
  PyStr.lower_char c = "e"%char <-> c = "e"%char \/ c = "E"%char.
Proof.
  split.
  - destruct c as [[] [] [] [] [] [] [] []]; vm_compute; intros H;
      first [discriminate H | now left | now right].
  - intros [-> | ->]; reflexivity.
Qed.

Lemma lower_e t :
  PyStr.lower t = "e" <-> t = "e" \/ t = "E".
Proof.
  split.
  - destruct t as [|c [|c' r]]; simpl; try discriminate.
    intros H. injection H as H. apply lower_char_e in H.
    destruct H as [-> | ->]; auto.
  - intros [-> | ->]; reflexivity.
Qed.

(** The answers that select the dynamic path: one letter e, in either
    case, between runs of whitespace. *)
Lemma render_flag_true_iff s :
  render_flag s = true
  <-> exists pre c post,
        s = (pre ++ String c post)%string
        /\ spaces pre /\ spaces post /\ (c = "e"%char \/ c = "E"%char).
Proof.
  unfold render_flag. rewrite String.eqb_eq, lower_e. split.
  - intros H.
    destruct (lstrip_prefix s) as [pre [Hs Hpre]].
    destruct (rstrip_suffix (PyStr.lstrip s)) as [post [Hl Hpost]].
    unfold PyStr.strip in H.
    destruct H as [H | H]; rewrite H in Hl; simpl in Hl;
      rewrite Hl in Hs; exists pre; eexists; exists post; eauto.
  - intros [pre [c [post [-> [Hpre [Hpost Hc]]]]]].
    unfold PyStr.strip. rewrite (lstrip_spaces_app _ _ Hpre).
    assert (Hns : PyStr.is_space c = false)
      by (destruct Hc as [-> | ->]; reflexivity).
    simpl. rewrite Hns. simpl. rewrite (rstrip_spaces _ Hpost), Hns.
    destruct Hc as [-> | ->]; auto.
Qed.

(** C9: the dynamic fetch is run exactly when the answer to the third
    prompt, stripped and lower-cased, is the one letter e; on every
    other answer, y, yes and the empty answer among them, the static
    fetch is run. *)
Theorem render_flag_selects_fetch (lib : Lib) w l1 l2 l3 rest :
  stdin w = Line l1 :: Line l2 :: Line l3 :: rest ->
  (PyStr.lower (PyStr.strip l3) = "e" ->
   main lib w
   = bind (fetch_dynamic_html lib (PyStr.strip l1) 8)
          (after_fetch lib (PyStr.strip l2)) (set_stdin rest w))
  /\ (PyStr.lower (PyStr.strip l3) <> "e" ->
      main lib w
      = bind (fetch_static_html lib (PyStr.strip l1))
             (after_fetch lib (PyStr.strip l2)) (set_stdin rest w))
  /\ render_flag "y" = false
  /\ render_flag "yes" = false
  /\ render_flag EmptyString = false.
Proof.
  intros Hin.
  pose proof (main_unfold lib w l1 l2 l3 rest Hin) as Hm.
  unfold fetch_html, render_flag in Hm.
  repeat split.
  - intros He. apply String.eqb_eq in He. now rewrite He in Hm.
  - intros He. apply String.eqb_neq in He. now rewrite He in Hm.
Qed.

Lemma render_flag_selects_fetch_witness :
  browsers
    (snd (main (Sample.lib [] 200
                  (Raise (Exc (LibraryError "WebDriverException"))))
               (Sample.world ["http://example.org"; "2"; " E "])))
  = 1
  /\ main (Sample.lib [] 404 (Ok tt))
          (Sample.world ["http://example.org"; "2"; "yes"])
     = (Raise (Exc (LibraryError "HTTPError")), mkWorld [] [] 0 []).
Proof.
  split.
  - rewrite (proj1 (render_flag_selects_fetch
                      (Sample.lib [] 200
                         (Raise (Exc (LibraryError "WebDriverException"))))
                      (Sample.world ["http://example.org"; "2"; " E "])
                      "http://example.org" "2" " E " [] eq_refl) eq_refl).
    reflexivity.
  - rewrite (proj1 (proj2 (render_flag_selects_fetch
                      (Sample.lib [] 404 (Ok tt))
                      (Sample.world ["http://example.org"; "2"; "yes"])
                      "http://example.org" "2" "yes" [] eq_refl))).
    + reflexivity.
    + discriminate.
Defined.

(** *** The output file name *)

Lemma lacks_cons c x s :
  lacks c (String x s) <-> Ascii.eqb x c = false /\ lacks c s.
Proof.
  unfold lacks. simpl. rewrite andb_true_iff, negb_true_iff. tauto.
Qed.

Lemma lacks_app c a b :
  lacks c a -> lacks c b -> lacks c (a ++ b)%string.
Proof.
  intros Ha Hb. induction a as [|x r IH]; simpl; [exact Hb|].
  apply lacks_cons in Ha. destruct Ha as [Hx Hr].
  apply lacks_cons. split; [exact Hx|now apply IH].
Qed.

Lemma split_lacks c s : lacks c s -> PyStr.split c s = [s].
Proof.
  induction s as [|x r IH]; intros H; simpl; [reflexivity|].
  apply lacks_cons in H. destruct H as [Hx Hr].
  rewrite Hx. now rewrite (IH Hr).
Qed.

Lemma rfind_lacks c s : lacks c s -> PyStr.rfind c s = None.
Proof.
  induction s as [|x r IH]; intros H; simpl; [reflexivity|].
  apply lacks_cons in H. destruct H as [Hx Hr].
  now rewrite (IH Hr), Hx.
Qed.

Lemma rfind_last c a e :
  lacks c e ->
  PyStr.rfind c (a ++ String c e)%string = Some (String.length a).
Proof.
  intros He. induction a as [|x r IH]; simpl.
  - now rewrite (rfind_lacks c e He), Ascii.eqb_refl.
  - now rewrite IH.
Qed.

Lemma take_app a t : PyStr.take (String.length a) (a ++ t)%string = a.
Proof.
  induction a as [|x r IH]; simpl.
  - now destruct t.
  - now rewrite IH.
Qed.

Lemma length_app a b :
  String.length (a ++ b)%string = String.length a + String.length b.
Proof. induction a as [|x r IH]; simpl; [reflexivity|now rewrite IH]. Qed.

(** A base name [a.e]: the stem is [a]. *)
Lemma stem_strips_extension a e :
  a <> EmptyString -> lacks "/" a ->
  e <> EmptyString -> lacks "/" e -> lacks "." e ->
  Pathlib.stem (a ++ "." ++ e)%string = a.
Proof.
  intros Ha Hsa He Hse Hde.
  assert (Hname : Pathlib.name (a ++ "." ++ e)%string
                  = (a ++ "." ++ e)%string).
  { unfold Pathlib.name, Pathlib.parts.
    rewrite split_lacks.
    - destruct a as [|x r]; [contradiction|].
      destruct e as [|z t]; [contradiction|].
      simpl. destruct r; simpl; now destruct (Ascii.eqb x ".").
    - apply lacks_app; [exact Hsa|]. apply lacks_cons. now split. }
  unfold Pathlib.stem. rewrite Hname.
  change (a ++ "." ++ e)%string with (a ++ String "." e)%string.
  rewrite (rfind_last "." a e Hde), length_app.
  destruct a as [|x r]; [contradiction|].
  destruct e as [|z t]; [contradiction|].
  replace ((0 <? String.length (String x r))
           && (String.length (String x r)
               <? String.length (String x r)
                  + String.length (String "." (String z t)) - 1))
    with true.
  - apply take_app.
  - symmetry. apply andb_true_iff. split; apply Nat.ltb_lt; simpl; lia.
Qed.

(** A base name without extension is its own stem. *)
Lemma stem_no_extension a :
  a <> EmptyString -> lacks "/" a -> lacks "." a -> Pathlib.stem a = a.
Proof.
  intros Ha Hs Hd.
  assert (Hname : Pathlib.name a = a).
  { unfold Pathlib.name, Pathlib.parts. rewrite (split_lacks _ _ Hs).
    simpl filter. destruct a as [|x r]; [contradiction|].
    apply lacks_cons in Hd. destruct Hd as [Hx _].
    simpl. destruct r; simpl; now rewrite Hx. }
  unfold Pathlib.stem. rewrite Hname. now rewrite (rfind_lacks _ _ Hd).
Qed.

(** The file [save_df] writes when it returns. *)
Lemma save_df_writes (lib : Lib) df fmt base_name w w' :
  save_df lib df fmt base_name w = (Ok tt, w') ->
  exists content,
    files w' = (output_name fmt base_name, content) :: files w.
Proof.
  unfold save_df, bind, lift, write_file, print.
  destruct (String.eqb fmt "csv").
  - destruct (open_w lib (output_name fmt base_name)); simpl; intros H.
    + injection H as <-. now eexists.
    + discriminate.
  - destruct (to_json lib df) as [text|e]; simpl; [|discriminate].
    destruct (open_w lib (output_name fmt base_name)); simpl; intros H.
    + injection H as <-. now eexists.
    + discriminate.
Qed.

Lemma split_pieces_lack c s : Forall (lacks c) (PyStr.split c s).
Proof.
  induction s as [|x r IH]; simpl.
  - now repeat constructor.
  - destruct (Ascii.eqb x c) eqn:Hx.
    + constructor; [reflexivity|exact IH].
    + destruct (PyStr.split c r) as [|p ps]; inversion IH; subst.
      * repeat constructor. apply lacks_cons. now split.
      * constructor; [|assumption]. apply lacks_cons. now split.
Qed.

Lemma last_Forall {A} (P : A -> Prop) (l : list A) (d : A) :
  P d -> Forall P l -> P (last l d).
Proof.
  intros Hd H. induction H as [|x r Hx Hr IH]; [exact Hd|].
  simpl. destruct r; [exact Hx|exact IH].
Qed.

Lemma name_lacks_slash p : lacks "/" (Pathlib.name p).
Proof.
  unfold Pathlib.name, Pathlib.parts.
  apply last_Forall; [reflexivity|].
  apply Forall_forall. intros x Hx. apply filter_In in Hx.
  destruct Hx as [Hx _].
  now apply (proj1 (Forall_forall _ _) (split_pieces_lack "/" p)).
Qed.

Lemma take_lacks c n s : lacks c s -> lacks c (PyStr.take n s).
Proof.
  revert s. induction n as [|n IH]; intros s H; [now destruct s|].
  destruct s as [|x r]; [reflexivity|].
  apply lacks_cons in H. destruct H as [Hx Hr].
  simpl. apply lacks_cons. split; [exact Hx|now apply IH].
Qed.

(** The stem is one path component: it holds no slash. *)
Lemma stem_lacks_slash p : lacks "/" (Pathlib.stem p).
Proof.
  unfold Pathlib.stem. pose proof (name_lacks_slash p) as H.
  destruct (PyStr.rfind "." (Pathlib.name p)) as [i|]; [|exact H].
  destruct ((0 <? i) && (i <? String.length (Pathlib.name p) - 1));
    [now apply take_lacks|exact H].
Qed.

(** The last suffix of the name is what the stem leaves out. *)
Lemma stem_of_name p a e :
  Pathlib.name p = (a ++ "." ++ e)%string ->
  a <> EmptyString -> e <> EmptyString -> lacks "." e ->
  Pathlib.stem p = a.
Proof.
  intros Hname Ha He Hde. unfold Pathlib.stem. rewrite Hname.
  change (a ++ "." ++ e)%string with (a ++ String "." e)%string.
  rewrite (rfind_last "." a e Hde), length_app.
  destruct a as [|x r]; [contradiction|].
  destruct e as [|z t]; [contradiction|].
  replace ((0 <? String.length (String x r))
           && (String.length (String x r)
               <? String.length (String x r)
                  + String.length (String "." (String z t)) - 1))
    with true.
  - apply take_app.
  - symmetry. apply andb_true_iff. split; apply Nat.ltb_lt; simpl; lia.
Qed.

(** A plain name is its own path. *)
Lemma path_str_plain s :
  lacks "/" s -> s <> EmptyString -> s <> "." -> Pathlib.path_str s = s.
Proof.
  intros Hs He Hd. unfold Pathlib.path_str, Pathlib.parts.
  rewrite (split_lacks _ _ Hs). simpl filter.
  apply String.eqb_neq in He. apply String.eqb_neq in Hd.
  rewrite He, Hd. simpl.
  assert (Hroot : Pathlib.root s = EmptyString).
  { destruct s as [|x r]; [reflexivity|].
    apply lacks_cons in Hs. destruct Hs as [Hx _].
    unfold Pathlib.root.
    destruct x as [[] [] [] [] [] [] [] []]; try reflexivity.
    discriminate Hx. }
  rewrite Hroot. simpl.
  destruct s; [|reflexivity]. now apply String.eqb_neq in He.
Qed.

(** With a format that holds no slash the name is the stem, a dot and
    the format. *)
Lemma output_name_plain fmt base_name :
  lacks "/" fmt -> fmt <> EmptyString ->
  output_name fmt base_name = (Pathlib.stem base_name ++ "." ++ fmt)%string.
Proof.
  intros Hf Hne. unfold output_name. apply path_str_plain.
  - apply lacks_app; [apply stem_lacks_slash|].
    apply lacks_cons. now split.
  - destruct (Pathlib.stem base_name); discriminate.
  - destruct (Pathlib.stem base_name) as [|x r]; simpl.
    + destruct fmt; [contradiction|discriminate].
    + intros H. injection H as _ H. destruct r; discriminate.
Qed.

(** The claim of C6 fails on a format that is neither [csv] nor
    [json]: the format string itself becomes the extension. *)
Lemma save_df_other_extension :
  run (Sample.lib [] 200 (Ok tt))
      (Sample.world ["http://example.org"; "2"; "h"; "xml"; "report.old"])
  = (0%Z, mkWorld [] [MsgSaved "report.xml"] 0 [("report.xml", "[]")])
  /\ output_name "xml" "report.old" <> "report.csv"
  /\ output_name "xml" "report.old" <> "report.json".
Proof. repeat split; discriminate. Qed.

(** C6 (amended): for every base name and every format, the writer
    names the output file [Path(stem.fmt)], where the stem is the last
    path component of the base name with its last suffix stripped; a
    format without slash is appended as typed, so the extension is
    [.csv] for the format [csv], [.json] for the format [json], and
    the format itself for any other value; the base name [report.old]
    with the format [json] gives [report.json]. *)
Theorem save_df_output_name (lib : Lib) df fmt base_name w w' :
  save_df lib df fmt base_name w = (Ok tt, w') ->
  (exists content,
      files w'
      = (Pathlib.path_str (Pathlib.stem base_name ++ "." ++ fmt)%string,
         content) :: files w)
  /\ lacks "/" (Pathlib.stem base_name)
  /\ (forall a e,
         Pathlib.name base_name = (a ++ "." ++ e)%string ->
         a <> EmptyString -> e <> EmptyString -> lacks "." e ->
         Pathlib.stem base_name = a)
  /\ (lacks "/" fmt -> fmt <> EmptyString ->
      output_name fmt base_name
      = (Pathlib.stem base_name ++ "." ++ fmt)%string)
  /\ output_name "csv" base_name = (Pathlib.stem base_name ++ ".csv")%string
  /\ output_name "json" base_name
     = (Pathlib.stem base_name ++ ".json")%string
  /\ output_name "json" "report.old" = "report.json".
Proof.
  intros Hsave. repeat split.
  - exact (save_df_writes lib df fmt base_name w w' Hsave).
  - apply stem_lacks_slash.
  - intros a e. apply stem_of_name.
  - apply output_name_plain.
  - apply (output_name_plain "csv"); [reflexivity|discriminate].
  - apply (output_name_plain "json"); [reflexivity|discriminate].
Qed.

Lemma save_df_output_name_witness :
  exists content,
    files (snd (save_df (Sample.lib [] 200 (Ok tt)) (mkDF [] []) "json"
                  "old/report.v1.old" (Sample.world [])))
    = [("report.v1.json", content)].
Proof.
  apply (save_df_output_name (Sample.lib [] 200 (Ok tt)) (mkDF [] [])
           "json" "old/report.v1.old" (Sample.world [])
           (snd (save_df (Sample.lib [] 200 (Ok tt)) (mkDF [] []) "json"
                   "old/report.v1.old" (Sample.world [])))).
  reflexivity.
Defined.

(** *** Concrete selections on three tables *)

Example choose_tables_default_first :
  fst (choose_tables Sample.three_tables (Sample.world [" "]))
  = Ok (Sample.table "a" 0).
Proof. reflexivity. Qed.

Example choose_tables_all :
  fst (choose_tables Sample.three_tables (Sample.world ["ALL"]))
  = Ok (mkDF ["name"; "rank"]
             [[VStr "a"; VInt 0]; [VStr "b"; VInt 1]; [VStr "c"; VInt 2]]).
Proof. reflexivity. Qed.

Example choose_tables_0_2 :
  fst (choose_tables Sample.three_tables (Sample.world ["0, 2,x,7"]))
  = Ok (mkDF ["name"; "rank"] [[VStr "a"; VInt 0]; [VStr "c"; VInt 2]]).
Proof. reflexivity. Qed.

Example choose_tables_not_a_number :
  fst (choose_tables Sample.three_tables (Sample.world ["abc"]))
  = Raise (Exc (ValueError "No objects to concatenate")).
Proof. reflexivity. Qed.

Example run_links_csv :
  run (Sample.lib [] 200 (Ok tt))
      (Sample.world ["http://example.org"; "2"; "h"; " "; " "])
  = (0%Z,
     mkWorld [] [MsgSaved "extracted.csv"] 0
       [("extracted.csv",
         Pandas.csv_line ["text"; "href"]
         ++ Pandas.csv_line ["Home"; "/"]
         ++ Pandas.csv_line ["Anchor"; EmptyString])%string]).
Proof. reflexivity. Qed.

(** ** Further properties of the program *)

(** *** The getters *)

(** X1: when [fetch_static_html] returns, the text is the body of a
    response whose status is outside 400-599, and the world is as
    before: the body of an error response is never returned. *)
Theorem fetch_static_html_returns (lib : Lib) url w html w' :
  fetch_static_html lib url w = (Ok html, w') ->
  w' = w
  /\ exists status, requests_get lib url = Ok (status, html)
                    /\ (status < 400 \/ 600 <= status)%Z.
Proof.
  unfold fetch_static_html, bind, lift, raise_for_status, raise, ret.
  destruct (requests_get lib url) as [[st body]|e]; simpl; [|discriminate].
  destruct ((400 <=? st) && (st <? 600))%Z eqn:Hst; [discriminate|].
  intros H. injection H as <- <-. split; [reflexivity|].
  exists st. split; [reflexivity|].
  apply andb_false_iff in Hst. destruct Hst as [H|H].
  - left. apply Z.leb_gt in H. exact H.
  - right. apply Z.ltb_ge in H. exact H.
Qed.

Lemma fetch_static_html_returns_witness :
  Sample.world [] = Sample.world []
  /\ exists status,
       requests_get (Sample.lib [] 200 (Ok tt)) "http://example.org"
       = Ok (status, "http://example.org")
       /\ (status < 400 \/ 600 <= status)%Z.
Proof.
  apply (fetch_static_html_returns (Sample.lib [] 200 (Ok tt))
           "http://example.org" (Sample.world []) "http://example.org"
           (Sample.world [])).
  reflexivity.
Defined.

(** X2: [fetch_dynamic_html] starts at most one browser session.  When
    it returns, the text is the page source and the session is ended;
    when the driver cannot be installed or the browser does not start,
    no session is left either. *)
Theorem fetch_dynamic_html_sessions (lib : Lib) url wait w :
  (forall html,
      fst (fetch_dynamic_html lib url wait w) = Ok html ->
      page_source lib url = Ok html
      /\ snd (fetch_dynamic_html lib url wait w) = w)
  /\ (forall e,
         chromedriver_install lib = Raise e \/ chrome_launch lib = Raise e ->
         snd (fetch_dynamic_html lib url wait w) = w)
  /\ (browsers (snd (fetch_dynamic_html lib url wait w)) = browsers w
      \/ browsers (snd (fetch_dynamic_html lib url wait w))
         = S (browsers w)).
Proof.
  unfold fetch_dynamic_html, bind, lift, webdriver_Chrome, driver_quit, ret.
  destruct (chromedriver_install lib) as [p|e0]; simpl.
  2:{ repeat split; auto. discriminate. }
  destruct (chrome_launch lib) as [[]|e1]; simpl.
  2:{ repeat split; auto. discriminate. }
  destruct (driver_get lib url) as [[]|e2]; simpl.
  2:{ repeat split; auto; try discriminate.
      intros e [H|H]; discriminate. }
  destruct (time_sleep lib wait) as [[]|e3]; simpl.
  2:{ repeat split; auto; try discriminate.
      intros e [H|H]; discriminate. }
  destruct (page_source lib url) as [html|e4]; simpl.
  2:{ repeat split; auto; try discriminate.
      intros e [H|H]; discriminate. }
  split; [|split].
  - intros html' H. injection H as <-. split; [reflexivity|].
    now destruct w.
  - intros e [H|H]; discriminate.
  - now left.
Qed.

Lemma fetch_dynamic_html_sessions_witness :
  page_source (Sample.lib [] 200 (Ok tt)) "http://example.org"
  = Ok "http://example.org"
  /\ snd (fetch_dynamic_html (Sample.lib [] 200 (Ok tt))
            "http://example.org" 8 (mkWorld [] [] 2 []))
     = mkWorld [] [] 2 [].
Proof.
  apply (proj1 (fetch_dynamic_html_sessions (Sample.lib [] 200 (Ok tt))
                  "http://example.org" 8 (mkWorld [] [] 2 []))
           "http://example.org").
  reflexivity.
Defined.

(** *** What [choose_tables] does to the world *)

(** X3: given at least one table, [choose_tables] prints the count and
    one preview per table, numbered from 0, takes one item from
    standard input, and touches neither files nor browser sessions,
    whatever the selection and whether it returns or raises. *)
Theorem choose_tables_prompts (dfs : list DataFrame) (w : World) :
  dfs <> [] ->
  snd (choose_tables dfs w)
  = mkWorld (tl (stdin w))
            (stdout w ++ MsgTablesFound (length dfs) :: previews dfs)
            (browsers w) (files w).
Proof.
  intros Hne. destruct dfs as [|first more]; [contradiction|].
  unfold choose_tables.
  unfold bind at 1. unfold print at 1. cbv beta iota.
  unfold bind at 1. rewrite print_previews_run.
  cbn [stdin stdout browsers files].
  rewrite <- app_assoc. cbn [app]. fold (previews (first :: more)).
  unfold bind at 1. unfold input.
  cbn [stdin stdout browsers files].
  destruct (stdin w) as [|[line|] rest]; cbn [tl]; try reflexivity.
  destruct (String.eqb (PyStr.strip line) EmptyString); [reflexivity|].
  destruct (String.eqb (PyStr.lower (PyStr.strip line)) "all");
    [reflexivity|].
  unfold bind, lift.
  now destruct (parse_indices (PyStr.split "," (PyStr.strip line))).
Qed.

Lemma choose_tables_prompts_witness :
  snd (choose_tables Sample.three_tables (Sample.world ["9"; "csv"]))
  = mkWorld [Line "csv"]
      [MsgTablesFound 3;
       MsgPreview 0 (Sample.table "a" 0);
       MsgPreview 1 (Sample.table "b" 1);
       MsgPreview 2 (Sample.table "c" 2)] 0 [].
Proof.
  apply (choose_tables_prompts Sample.three_tables
           (Sample.world ["9"; "csv"])).
  discriminate.
Defined.

(** *** Stacking tables *)

Lemma mem_In k l : Pandas.mem k l = true <-> In k l.
Proof.
  unfold Pandas.mem. rewrite existsb_exists. split.
  - intros [x [Hin Heq]]. apply String.eqb_eq in Heq. now subst.
  - intros H. exists k. split; [exact H|apply String.eqb_refl].
Qed.

Lemma add_labels_fresh seen ks :
  NoDup (seen ++ ks) -> Pandas.add_labels seen ks = seen ++ ks.
Proof.
  revert seen. induction ks as [|k r IH]; intros seen Hnd; simpl.
  - now rewrite app_nil_r.
  - destruct (Pandas.mem k seen) eqn:Hm.
    + apply mem_In in Hm. apply NoDup_remove_2 in Hnd.
      exfalso. apply Hnd. apply in_or_app. now left.
    + rewrite IH; rewrite <- app_assoc; [reflexivity|exact Hnd].
Qed.

Lemma add_labels_known seen ks :
  incl ks seen -> Pandas.add_labels seen ks = seen.
Proof.
  induction ks as [|k r IH]; intros Hincl; simpl; [reflexivity|].
  assert (Hk : Pandas.mem k seen = true)
    by (apply mem_In, Hincl; now left).
  rewrite Hk. apply IH. intros x Hx. apply Hincl. now right.
Qed.

Lemma lookup_combine ks row :
  NoDup ks -> length row = length ks ->
  map (fun c => Pandas.lookup c (combine ks row)) ks = row.
Proof.
  revert row. induction ks as [|k r IH]; intros row Hnd Hlen.
  - now destruct row.
  - destruct row as [|v row']; [discriminate|].
    inversion Hnd as [|x l Hnotin Hnd' Heq]; subst.
    cbn [combine map]. simpl Pandas.lookup at 1.
    rewrite String.eqb_refl. f_equal.
    transitivity (map (fun c => Pandas.lookup c (combine r row')) r).
    + apply map_ext_in. intros c Hc. apply lookup_skip.
      intros ->. now apply Hnotin.
    + apply IH; [exact Hnd'|]. simpl in Hlen. lia.
Qed.

Lemma union_labels_uniform ks dfs :
  NoDup ks -> dfs <> [] -> Forall (fun df => columns df = ks) dfs ->
  Pandas.union_labels (map columns dfs) = ks.
Proof.
  intros Hnd Hne Hall.
  assert (Hmap : map columns dfs = map (fun _ => ks) dfs).
  { apply map_ext_in. intros df Hdf.
    now apply (proj1 (Forall_forall _ _) Hall). }
  rewrite Hmap, union_labels_const.
  - now destruct dfs.
  - now apply (add_labels_fresh []).
  - apply add_labels_known, incl_refl.
Qed.

(** Frames with the same columns are stacked row after row. *)
Lemma concat_uniform ks dfs :
  dfs <> [] -> uniform ks dfs ->
  Pandas.concat dfs = Ok (mkDF ks (flat_map rows dfs)).
Proof.
  intros Hne Hu.
  assert (Hnd : NoDup ks).
  { destruct dfs as [|d r]; [contradiction|].
    inversion Hu as [|x l [Hc [Hn _]] _]; subst. exact Hn. }
  assert (Hcols : Pandas.union_labels (map columns dfs) = ks).
  { apply union_labels_uniform; [exact Hnd|exact Hne|].
    eapply Forall_impl; [|exact Hu]. now intros df [H _]. }
  unfold Pandas.concat. destruct dfs as [|d r]; [contradiction|].
  rewrite Hcols. do 2 f_equal.
  clear Hne Hcols. induction Hu as [|df l [Hc [_ Hrows]] _ IH];
    [reflexivity|].
  cbn [flat_map]. rewrite IH. f_equal.
  unfold Pandas.records. rewrite map_map. rewrite Hc in *.
  rewrite <- (map_id (rows df)) at 2.
  apply map_ext_in. intros row Hrow.
  apply lookup_combine; [exact Hnd|].
  now apply (proj1 (Forall_forall _ _) Hrows).
Qed.

Lemma lstrip_spaces s : spaces s -> PyStr.lstrip s = EmptyString.
Proof.
  unfold spaces. induction s as [|c r IH]; simpl; [reflexivity|].
  intros H. apply andb_true_iff in H. destruct H as [Hc Hr].
  rewrite Hc. now apply IH.
Qed.

Lemma strip_spaces s : spaces s -> PyStr.strip s = EmptyString.
Proof.
  intros H. unfold PyStr.strip. now rewrite (lstrip_spaces s H).
Qed.

(** The start of [choose_tables] on a selection line. *)
Lemma choose_tables_line first more w line rest :
  stdin w = Line line :: rest ->
  fst (choose_tables (first :: more) w)
  = let sel := PyStr.strip line in
    if String.eqb sel EmptyString then Pandas.concat [first]
    else if String.eqb (PyStr.lower sel) "all"
         then Pandas.concat (first :: more)
         else match parse_indices (PyStr.split "," sel) with
              | Ok idxs => Pandas.concat (pick (first :: more) idxs)
              | Raise e => Raise e
              end.
Proof.
  intros Hin. unfold choose_tables.
  unfold bind at 1. unfold print at 1. cbv beta iota.
  unfold bind at 1. rewrite print_previews_run.
  unfold bind at 1. rewrite (input_line _ line rest) by exact Hin.
  cbv zeta.
  destruct (String.eqb (PyStr.strip line) EmptyString); [reflexivity|].
  destruct (String.eqb (PyStr.lower (PyStr.strip line)) "all");
    [reflexivity|].
  unfold bind, lift.
  now destruct (parse_indices (PyStr.split "," (PyStr.strip line))).
Qed.

(** X4: on a blank selection [choose_tables] returns the first table
    as it is. *)
Theorem choose_tables_blank_selects_first first more w line rest :
  well_formed first ->
  stdin w = Line line :: rest ->
  spaces line ->
  fst (choose_tables (first :: more) w) = Ok first.
Proof.
  intros Hwf Hin Hsp.
  rewrite (choose_tables_line first more w line rest Hin). cbv zeta.
  rewrite (strip_spaces line Hsp). simpl String.eqb. cbv iota.
  rewrite (concat_uniform (columns first) [first]).
  - simpl. rewrite app_nil_r. now destruct first.
  - discriminate.
  - constructor; [now split|constructor].
Qed.

Lemma choose_tables_blank_selects_first_witness :
  fst (choose_tables Sample.three_tables (Sample.world ["  "]))
  = Ok (Sample.table "a" 0).
Proof.
  apply (choose_tables_blank_selects_first (Sample.table "a" 0)
           [Sample.table "b" 1; Sample.table "c" 2]
           (Sample.world ["  "]) "  " []).
  - split.
    + apply NoDup_2. discriminate.
    + repeat constructor.
  - reflexivity.
  - reflexivity.
Defined.

(** X5: on the selection [all], in any case of letters, tables with
    the same columns are returned stacked: every row of every table,
    in the original order. *)
Theorem choose_tables_all_stacks ks dfs w line rest :
  dfs <> [] -> uniform ks dfs ->
  stdin w = Line line :: rest ->
  PyStr.lower (PyStr.strip line) = "all" ->
  fst (choose_tables dfs w) = Ok (mkDF ks (flat_map rows dfs)).
Proof.
  intros Hne Hu Hin Hall.
  destruct dfs as [|first more]; [contradiction|].
  rewrite (choose_tables_line first more w line rest Hin). cbv zeta.
  destruct (String.eqb (PyStr.strip line) EmptyString) eqn:He.
  - apply String.eqb_eq in He. rewrite He in Hall. discriminate.
  - rewrite Hall. simpl String.eqb. cbv iota.
    now apply concat_uniform.
Qed.

Lemma three_tables_uniform : uniform ["name"; "rank"] Sample.three_tables.
Proof.
  assert (Hnd : NoDup ["name"; "rank"]) by (apply NoDup_2; discriminate).
  unfold uniform, well_formed, Sample.three_tables.
  repeat (constructor; [split; [reflexivity|split; [exact Hnd|]]|]);
    repeat constructor.
Qed.

Lemma choose_tables_all_stacks_witness :
  fst (choose_tables Sample.three_tables (Sample.world [" All "]))
  = Ok (mkDF ["name"; "rank"]
             [[VStr "a"; VInt 0]; [VStr "b"; VInt 1]; [VStr "c"; VInt 2]]).
Proof.
  apply (choose_tables_all_stacks ["name"; "rank"] Sample.three_tables
           (Sample.world [" All "]) " All " []).
  - discriminate.
  - exact three_tables_uniform.
  - reflexivity.
  - reflexivity.
Defined.

Lemma pick_uniform ks dfs idxs : uniform ks dfs -> uniform ks (pick dfs idxs).
Proof.
  intros Hu. induction idxs as [|i r IH]; simpl; [constructor|].
  destruct (nth_error dfs i) as [df|] eqn:Hn; [|exact IH].
  constructor; [|exact IH].
  apply nth_error_In in Hn.
  now apply (proj1 (Forall_forall _ _) Hu).
Qed.

Lemma pick_nonempty dfs idxs :
  Exists (fun i => i < length dfs) idxs -> pick dfs idxs <> [].
Proof.
  induction 1 as [i r Hi | i r _ IH]; simpl.
  - apply nth_error_Some in Hi.
    destruct (nth_error dfs i); [discriminate|contradiction].
  - destruct (nth_error dfs i); [discriminate|exact IH].
Qed.

Lemma flat_map_pick dfs idxs :
  flat_map rows (pick dfs idxs) = flat_map (rows_at dfs) idxs.
Proof.
  induction idxs as [|i r IH]; simpl; [reflexivity|].
  unfold rows_at at 1.
  destruct (nth_error dfs i); simpl; now rewrite IH.
Qed.

(** X6: on a list of indices of which at least one is in range, tables
    with the same columns are stacked in the order the indices were
    typed: an index typed twice gives its table twice, an index out of
    range gives nothing. *)
Theorem choose_tables_by_index ks dfs w line rest idxs :
  uniform ks dfs ->
  stdin w = Line line :: rest ->
  PyStr.strip line <> EmptyString ->
  PyStr.lower (PyStr.strip line) <> "all" ->
  parse_indices (PyStr.split "," (PyStr.strip line)) = Ok idxs ->
  Exists (fun i => i < length dfs) idxs ->
  fst (choose_tables dfs w) = Ok (mkDF ks (flat_map (rows_at dfs) idxs)).
Proof.
  intros Hu Hin Hne Hnall Hp Hex.
  pose proof (pick_nonempty dfs idxs Hex) as Hpick.
  destruct dfs as [|first more].
  { exfalso. apply Hpick. clear. induction idxs as [|i r IH]; simpl.
    - reflexivity.
    - now destruct i. }
  rewrite (choose_tables_line first more w line rest Hin). cbv zeta.
  apply String.eqb_neq in Hne. rewrite Hne.
  apply String.eqb_neq in Hnall. rewrite Hnall.
  rewrite Hp.
  rewrite (concat_uniform ks _ Hpick (pick_uniform ks _ idxs Hu)).
  now rewrite flat_map_pick.
Qed.

Lemma choose_tables_by_index_witness :
  fst (choose_tables Sample.three_tables (Sample.world ["2, 0,x,7,2"]))
  = Ok (mkDF ["name"; "rank"]
             [[VStr "c"; VInt 2]; [VStr "a"; VInt 0]; [VStr "c"; VInt 2]]).
Proof.
  apply (choose_tables_by_index ["name"; "rank"] Sample.three_tables
           (Sample.world ["2, 0,x,7,2"]) "2, 0,x,7,2" [] [2; 0; 7; 2]).
  - exact three_tables_uniform.
  - reflexivity.
  - discriminate.
  - discriminate.
  - reflexivity.
  - constructor. simpl. lia.
Defined.

Lemma parse_indices_app_raise pre x post idxs :
  parse_indices pre = Ok idxs ->
  PyStr.isdigit (PyStr.strip x) = true ->
  PyStr.int x = None ->
  parse_indices (pre ++ x :: post)
  = Raise (Exc (ValueError "invalid literal for int()")).
Proof.
  revert idxs. induction pre as [|y r IH]; intros idxs Hp Hd Hi; simpl.
  - now rewrite Hd, Hi.
  - simpl in Hp.
    destruct (PyStr.isdigit (PyStr.strip y)).
    + destruct (PyStr.int y); [|discriminate].
      destruct (parse_indices r) as [l|e] eqn:Hr; [|discriminate].
      now rewrite (IH l eq_refl Hd Hi).
    + now apply (IH idxs).
Qed.

(** X7: a token that [isdigit] accepts and [int] refuses (a
    superscript digit) is not dropped like other invalid tokens: the
    selection raises [ValueError], whatever the other tokens select. *)
Theorem choose_tables_digit_not_decimal dfs w line rest pre x post idxs :
  dfs <> [] ->
  stdin w = Line line :: rest ->
  PyStr.strip line <> EmptyString ->
  PyStr.lower (PyStr.strip line) <> "all" ->
  PyStr.split "," (PyStr.strip line) = pre ++ x :: post ->
  parse_indices pre = Ok idxs ->
  PyStr.isdigit (PyStr.strip x) = true ->
  PyStr.int x = None ->
  fst (choose_tables dfs w)
  = Raise (Exc (ValueError "invalid literal for int()")).
Proof.
  intros Hne Hin Hsel Hall Hsplit Hp Hd Hi.
  destruct dfs as [|first more]; [contradiction|].
  rewrite (choose_tables_line first more w line rest Hin). cbv zeta.
  apply String.eqb_neq in Hsel. rewrite Hsel.
  apply String.eqb_neq in Hall. rewrite Hall.
  rewrite Hsplit.
  now rewrite (parse_indices_app_raise pre x post idxs Hp Hd Hi).
Qed.

Lemma choose_tables_digit_not_decimal_witness :
  fst (choose_tables Sample.three_tables
         (Sample.world [String "0" (String ","
                          (String (ascii_of_nat 178) EmptyString))]))
  = Raise (Exc (ValueError "invalid literal for int()")).
Proof.
  apply (choose_tables_digit_not_decimal Sample.three_tables
           (Sample.world [String "0" (String ","
                            (String (ascii_of_nat 178) EmptyString))])
           (String "0" (String "," (String (ascii_of_nat 178) EmptyString)))
           [] ["0"] (String (ascii_of_nat 178) EmptyString) [] [0]);
    try discriminate; reflexivity.
Defined.

(** *** What the extractors return *)

Lemma records_of_map {A} (ks : list string) (f : A -> Pandas.record)
      (xs : list A) :
  NoDup ks ->
  (forall x, map fst (f x) = ks) ->
  Pandas.records (Pandas.DataFrame_of (map f xs)) = map f xs
  /\ length (rows (Pandas.DataFrame_of (map f xs))) = length xs.
Proof.
  intros Hnd Hf.
  assert (Hall : Forall (fun d => map fst d = ks) (map f xs)).
  { apply Forall_forall. intros d Hd. apply in_map_iff in Hd.
    destruct Hd as [x [<- _]]. apply Hf. }
  split.
  - apply (records_DataFrame_of ks (map f xs) Hnd); [| |exact Hall].
    + now apply (add_labels_fresh []).
    + apply add_labels_known, incl_refl.
  - unfold Pandas.DataFrame_of. cbn [rows]. now rewrite !length_map.
Qed.

(** X8: [extract_links] gives one record per anchor, in document
    order, with the anchor's text and its [href], [None] when the
    anchor has none; no anchor is filtered out. *)
Theorem extract_links_records (lib : Lib) (soup : Soup lib) :
  Pandas.records (extract_links lib soup)
  = map (fun a => [("text", VStr (get_text lib a EmptyString));
                   ("href", opt_value (get_attr lib a "href"))])
        (find_all lib soup "a")
  /\ length (rows (extract_links lib soup))
     = length (find_all lib soup "a").
Proof.
  unfold extract_links. apply (records_of_map ["text"; "href"]).
  - apply NoDup_2. discriminate.
  - reflexivity.
Qed.

(** X9: [extract_paragraphs] gives one record per paragraph element,
    in document order, with its text joined by single spaces. *)
Theorem extract_paragraphs_records (lib : Lib) (soup : Soup lib) :
  Pandas.records (extract_paragraphs lib soup)
  = map (fun p => [("paragraph", VStr (get_text lib p " "))])
        (find_all lib soup "p")
  /\ length (rows (extract_paragraphs lib soup))
     = length (find_all lib soup "p").
Proof.
  unfold extract_paragraphs. apply (records_of_map ["paragraph"]).
  - apply NoDup_1.
  - reflexivity.
Qed.

(** X10: [extract_by_css] raises exactly when the selector does not
    parse; otherwise it changes nothing and gives one record per
    matched element, in document order, each repeating the selector
    and carrying the element's text. *)
Theorem extract_by_css_records (lib : Lib) (soup : Soup lib) selector w :
  snd (extract_by_css lib soup selector w) = w
  /\ match fst (extract_by_css lib soup selector w) with
     | Ok df =>
         selector_valid lib selector = true
         /\ Pandas.records df
            = map (fun e => [("selector", VStr selector);
                             ("text", VStr (get_text lib e " "))])
                  (select_matches lib soup selector)
         /\ length (rows df) = length (select_matches lib soup selector)
     | Raise e =>
         selector_valid lib selector = false
         /\ e = Exc (LibraryError "SelectorSyntaxError")
     end.
Proof.
  unfold extract_by_css, bind, lift, soup_select, ret.
  destruct (selector_valid lib selector); simpl.
  - split; [reflexivity|]. split; [reflexivity|].
    apply (records_of_map ["selector"; "text"]).
    + apply NoDup_2. discriminate.
    + reflexivity.
  - now repeat split.
Qed.

(** *** The writer *)

Lemma split_nonempty c s : PyStr.split c s <> [].
Proof.
  destruct s as [|x r]; simpl; [discriminate|].
  destruct (Ascii.eqb x c); [discriminate|].
  destruct (PyStr.split c r); discriminate.
Qed.

Lemma split_app_sep c d n :
  lacks c n ->
  PyStr.split c (d ++ String c n)%string = PyStr.split c d ++ [n].
Proof.
  intros Hn. induction d as [|x r IH]; simpl.
  - rewrite Ascii.eqb_refl. now rewrite (split_lacks c n Hn).
  - destruct (Ascii.eqb x c); rewrite IH; [reflexivity|].
    pose proof (split_nonempty c r) as Hr.
    destruct (PyStr.split c r); [contradiction|reflexivity].
Qed.

Lemma last_app_one {A} (l : list A) (x d : A) : last (l ++ [x]) d = x.
Proof.
  induction l as [|y r IH]; [reflexivity|].
  simpl. destruct (r ++ [x]) eqn:H; [now destruct r|exact IH].
Qed.

Lemma name_single n :
  lacks "/" n -> n <> EmptyString -> n <> "." -> Pathlib.name n = n.
Proof.
  intros Hs He Hd. unfold Pathlib.name, Pathlib.parts.
  rewrite (split_lacks _ _ Hs). simpl filter.
  apply String.eqb_neq in He. apply String.eqb_neq in Hd.
  now rewrite He, Hd.
Qed.

(** X11: the directory part of the base name is dropped: the file name
    is built from the last path component alone, so the file lands in
    the working directory. *)
Theorem output_name_drops_directory fmt d n :
  lacks "/" n -> n <> EmptyString -> n <> "." ->
  output_name fmt (d ++ "/" ++ n)%string = output_name fmt n.
Proof.
  intros Hs He Hd. unfold output_name, Pathlib.stem.
  assert (Hname : Pathlib.name (d ++ "/" ++ n)%string = Pathlib.name n).
  { rewrite (name_single n Hs He Hd).
    unfold Pathlib.name, Pathlib.parts.
    change (d ++ "/" ++ n)%string with (d ++ String "/" n)%string.
    rewrite (split_app_sep "/" d n Hs), filter_app. simpl filter.
    apply String.eqb_neq in He. apply String.eqb_neq in Hd.
    rewrite He, Hd. simpl. apply last_app_one. }
  now rewrite Hname.
Qed.

Lemma output_name_drops_directory_witness :
  output_name "csv" "out/2024/report.old" = output_name "csv" "report.old".
Proof.
  apply (output_name_drops_directory "csv" "out/2024" "report.old");
    try discriminate; reflexivity.
Defined.

(** X12: a base name without a dot, or whose only dot is the leading
    one, is kept whole: the leading dot of a hidden file starts no
    extension, and a format without slash is appended to the name as
    it is. *)
Theorem output_name_keeps_plain_name fmt a :
  a <> EmptyString -> lacks "/" a -> lacks "." a ->
  lacks "/" fmt -> fmt <> EmptyString ->
  output_name fmt a = (a ++ "." ++ fmt)%string
  /\ output_name fmt (String "." a) = (String "." a ++ "." ++ fmt)%string.
Proof.
  intros Ha Hs Hd Hf Hne. split.
  - rewrite (output_name_plain fmt a Hf Hne).
    now rewrite (stem_no_extension a Ha Hs Hd).
  - rewrite (output_name_plain fmt _ Hf Hne).
    assert (Hname : Pathlib.name (String "." a) = String "." a).
    { apply name_single.
      - apply lacks_cons. now split.
      - discriminate.
      - intros H. injection H as H. contradiction. }
    unfold Pathlib.stem. rewrite Hname. simpl PyStr.rfind.
    now rewrite (rfind_lacks _ _ Hd).
Qed.

Lemma output_name_keeps_plain_name_witness :
  output_name "json" "env" = "env.json"
  /\ output_name "json" ".env" = ".env.json".
Proof.
  apply (output_name_keeps_plain_name "json" "env");
    try discriminate; reflexivity.
Defined.



(** *** Whole runs *)

(** X14: an answer to the mode prompt other than 1, 2, 3 or 4 ends the
    run with exit status 1 and the invalid-choice message, after the
    page has been fetched and parsed; the remaining answers are not
    read and no file is written. *)
Theorem run_invalid_mode (lib : Lib) w l1 l2 l3 rest html w1 soup :
  stdin w = Line l1 :: Line l2 :: Line l3 :: rest ->
  ~ In (PyStr.strip l2) ["1"; "2"; "3"; "4"] ->
  fetch_html lib (render_flag l3) (PyStr.strip l1) (set_stdin rest w)
  = (Ok html, w1) ->
  BeautifulSoup lib html = Ok soup ->
  run lib w
  = (1%Z,
     mkWorld rest (stdout w ++ [MsgInvalidChoice]) (browsers w1) (files w)).
Proof.
  intros Hin Hmode Hf Hs.
  destruct (main_after_fetch lib w l1 l2 l3 rest html w1 soup Hin Hf Hs)
    as [Hmain [Hi [Ho Hfi]]].
  apply run_system_exit. rewrite Hmain.
  unfold finish, extract.
  assert (H1 : String.eqb (PyStr.strip l2) "1" = false)
    by (apply String.eqb_neq; intros E; apply Hmode; rewrite E; simpl; auto).
  assert (H2 : String.eqb (PyStr.strip l2) "2" = false)
    by (apply String.eqb_neq; intros E; apply Hmode; rewrite E; simpl; auto).
  assert (H3 : String.eqb (PyStr.strip l2) "3" = false)
    by (apply String.eqb_neq; intros E; apply Hmode; rewrite E; simpl; auto).
  assert (H4 : String.eqb (PyStr.strip l2) "4" = false)
    by (apply String.eqb_neq; intros E; apply Hmode; rewrite E; simpl; auto).
  rewrite H1, H2, H3, H4.
  unfold bind, print, sys_exit, raise. simpl.
  now rewrite Hi, Ho, Hfi.
Qed.

Lemma run_invalid_mode_witness :
  run (Sample.lib [] 200 (Ok tt))
      (Sample.world ["http://example.org"; "5"; "e"; "csv"; "out"])
  = (1%Z, mkWorld [Line "csv"; Line "out"] [MsgInvalidChoice] 0 []).
Proof.
  apply (run_invalid_mode (Sample.lib [] 200 (Ok tt))
           (Sample.world ["http://example.org"; "5"; "e"; "csv"; "out"])
           "http://example.org" "5" "e" [Line "csv"; Line "out"]
           "http://example.org"
           (mkWorld [Line "csv"; Line "out"] [] 0 []) Sample.page).
  - reflexivity.
  - simpl. intros [H|[H|[H|[H|[]]]]]; discriminate.
  - reflexivity.
  - reflexivity.
Defined.

(** X15: an interrupt at one of the first three prompts ends the run
    with the cancellation message and exit status 0; nothing has been
    fetched and no file is written. *)
Theorem run_interrupted_before_fetch (lib : Lib) w answered rest :
  length answered <= 2 ->
  stdin w = map Line answered ++ CtrlC :: rest ->
  run lib w
  = (0%Z, mkWorld rest (stdout w ++ [MsgCancelled]) (browsers w) (files w)).
Proof.
  intros Hlen Hin. unfold run, main, bind, input.
  destruct answered as [|a1 [|a2 [|a3 r]]]; simpl in Hin, Hlen;
    try lia; rewrite Hin; reflexivity.
Qed.

Lemma run_interrupted_before_fetch_witness :
  run (Sample.lib [] 200 (Ok tt))
      (mkWorld [Line "http://example.org"; CtrlC; Line "e"] [] 0 [])
  = (0%Z, mkWorld [Line "e"] [MsgCancelled] 0 []).
Proof.
  apply (run_interrupted_before_fetch (Sample.lib [] 200 (Ok tt))
           (mkWorld [Line "http://example.org"; CtrlC; Line "e"] [] 0 [])
           ["http://example.org"] [Line "e"]).
  - simpl. lia.
  - reflexivity.
Defined.

(** X16: when standard input ends before the three first answers are
    given, [EOFError] reaches the top-level handler: it is printed,
    the exit status is 0, and nothing is fetched or written. *)
Theorem run_end_of_input (lib : Lib) w answered :
  length answered <= 2 ->
  stdin w = map Line answered ->
  run lib w
  = (0%Z, mkWorld [] (stdout w ++ [MsgError EOFError])
                  (browsers w) (files w)).
Proof.
  intros Hlen Hin. unfold run, main, bind, input.
  destruct answered as [|a1 [|a2 [|a3 r]]]; simpl in Hin, Hlen;
    try lia; rewrite Hin; unfold print; simpl; try rewrite Hin;
    reflexivity.
Qed.

Lemma run_end_of_input_witness :
  run (Sample.lib [] 200 (Ok tt)) (Sample.world ["http://example.org"; "1"])
  = (0%Z, mkWorld [] [MsgError EOFError] 0 []).
Proof.
  apply (run_end_of_input (Sample.lib [] 200 (Ok tt))
           (Sample.world ["http://example.org"; "1"])
           ["http://example.org"; "1"]).
  - simpl. lia.
  - reflexivity.
Defined.

(** *** What a run leaves behind *)

Lemma keeps_bind {X A B} (f : World -> X) (m : M A) (k : A -> M B) :
  keeps f m -> (forall a, keeps f (k a)) -> keeps f (bind m k).
Proof.
  intros Hm Hk w. unfold bind. specialize (Hm w).
  destruct (m w) as [[a|e] w']; simpl in *.
  - now rewrite Hk.
  - exact Hm.
Qed.

Lemma keeps_pure {X A} (f : World -> X) (m : M A) :
  (forall w, snd (m w) = w) -> keeps f m.
Proof. intros H w. now rewrite H. Qed.

Section Frame.

(** A component of the world that depends on the browser sessions and
    on the files only. *)
Context {X : Type} (f : World -> X).
Hypothesis f_frame :
  forall s o b fl s' o', f (mkWorld s o b fl) = f (mkWorld s' o' b fl).

Lemma keeps_input : keeps f input.
Proof.
  intros w. unfold input. destruct w as [s o b fl]. simpl.
  destruct s as [|[l|] r]; simpl; auto.
Qed.

Lemma keeps_print m : keeps f (print m).
Proof. intros [s o b fl]. unfold print. simpl. apply f_frame. Qed.

Lemma keeps_print_previews i dfs : keeps f (print_previews i dfs).
Proof.
  revert i. induction dfs as [|df r IH]; intros i; simpl.
  - now apply keeps_pure.
  - apply keeps_bind; [apply keeps_print|]. intros _. apply IH.
Qed.

Lemma keeps_choose_tables dfs : keeps f (choose_tables dfs).
Proof.
  unfold choose_tables. destruct dfs as [|first more].
  - apply keeps_bind; [apply keeps_print|]. intros _. now apply keeps_pure.
  - apply keeps_bind; [apply keeps_print|]. intros _.
    apply keeps_bind; [apply keeps_print_previews|]. intros _.
    apply keeps_bind; [apply keeps_input|]. intros line.
    destruct (String.eqb (PyStr.strip line) EmptyString);
      [now apply keeps_pure|].
    destruct (String.eqb (PyStr.lower (PyStr.strip line)) "all");
      [now apply keeps_pure|].
    apply keeps_bind; [now apply keeps_pure|]. intros idxs.
    now apply keeps_pure.
Qed.

Lemma keeps_extract (lib : Lib) what html (soup : Soup lib) :
  keeps f (extract lib what html soup).
Proof.
  unfold extract.
  destruct (String.eqb what "1").
  { apply keeps_bind; [|apply keeps_choose_tables].
    apply keeps_pure. apply extract_tables_pure. }
  destruct (String.eqb what "2"); [now apply keeps_pure|].
  destruct (String.eqb what "3"); [now apply keeps_pure|].
  destruct (String.eqb what "4").
  { apply keeps_bind; [apply keeps_input|]. intros line.
    unfold extract_by_css.
    apply keeps_bind; [now apply keeps_pure|]. intros elems.
    now apply keeps_pure. }
  apply keeps_bind; [apply keeps_print|]. intros _. now apply keeps_pure.
Qed.

End Frame.

Lemma files_frame s o b fl s' o' :
  files (mkWorld s o b fl) = files (mkWorld s' o' b fl).
Proof. reflexivity. Qed.

Lemma browsers_frame s o b (fl : list (string * string)) s' o' :
  browsers (mkWorld s o b fl) = browsers (mkWorld s' o' b fl).
Proof. reflexivity. Qed.

Lemma keeps_files_fetch_html (lib : Lib) js url :
  keeps files (fetch_html lib js url).
Proof. intros w. apply (fetch_html_same_io lib js url w). Qed.

Lemma keeps_browsers_fetch_static (lib : Lib) url :
  keeps browsers (fetch_static_html lib url).
Proof.
  intros w. unfold fetch_static_html, bind, lift, raise_for_status, raise, ret.
  destruct (requests_get lib url) as [[st body]|e]; simpl; auto.
  destruct ((400 <=? st) && (st <? 600))%Z; reflexivity.
Qed.

Lemma keeps_browsers_save_df (lib : Lib) df fmt base_name :
  keeps browsers (save_df lib df fmt base_name).
Proof.
  intros w. unfold save_df, bind, lift, write_file, print.
  destruct (String.eqb fmt "csv"); simpl.
  - now destruct (open_w lib (output_name fmt base_name)).
  - destruct (to_json lib df); [|reflexivity].
    now destruct (open_w lib (output_name fmt base_name)).
Qed.

Lemma save_df_one_or_none (lib : Lib) df fmt base_name :
  writes_one_or_none (save_df lib df fmt base_name).
Proof.
  intros w. unfold save_df, bind, lift, write_file, print.
  destruct (String.eqb fmt "csv"); simpl.
  - destruct (open_w lib (output_name fmt base_name)); simpl;
      [now eexists; eexists|reflexivity].
  - destruct (to_json lib df); simpl; [|reflexivity].
    destruct (open_w lib (output_name fmt base_name)); simpl;
      [now eexists; eexists|reflexivity].
Qed.

Lemma one_or_none_bind {A} (m : M A) (k : A -> M unit) :
  keeps files m -> (forall a, writes_one_or_none (k a)) ->
  writes_one_or_none (bind m k).
Proof.
  intros Hm Hk w. unfold bind. specialize (Hm w).
  destruct (m w) as [[a|e] w']; simpl in *.
  - specialize (Hk a w'). destruct (k a w') as [[u|e] w2].
    + destruct Hk as [fn [c Hc]]. exists fn, c. now rewrite Hc, Hm.
    + now rewrite Hk.
  - exact Hm.
Qed.

Lemma main_one_or_none (lib : Lib) : writes_one_or_none (main lib).
Proof.
  unfold main.
  apply one_or_none_bind; [apply keeps_input, files_frame|]. intros l1.
  apply one_or_none_bind; [apply keeps_input, files_frame|]. intros l2.
  apply one_or_none_bind; [apply keeps_input, files_frame|]. intros l3.
  apply one_or_none_bind; [apply keeps_files_fetch_html|]. intros html.
  apply one_or_none_bind; [now apply keeps_pure|]. intros soup.
  apply one_or_none_bind; [apply keeps_extract, files_frame|]. intros df.
  apply one_or_none_bind; [apply keeps_input, files_frame|]. intros l4.
  apply one_or_none_bind; [apply keeps_input, files_frame|]. intros l5.
  apply save_df_one_or_none.
Qed.

(** X17: a run writes exactly one file when [main] returns, and then
    the exit status is 0; when [main] raises, whatever the exception,
    no file has been written. *)
Theorem run_writes_one_file_or_none (lib : Lib) (w : World) :
  match fst (main lib w) with
  | Ok _ =>
      fst (run lib w) = 0%Z
      /\ exists fn content,
           files (snd (run lib w)) = (fn, content) :: files w
  | Raise _ => files (snd (run lib w)) = files w
  end.
Proof.
  pose proof (main_one_or_none lib w) as H. unfold run.
  destruct (main lib w) as [[u|e] w']; simpl.
  - split; [reflexivity|exact H].
  - destruct e as [|code|e]; simpl; exact H.
Qed.

Lemma after_fetch_keeps_browsers (lib : Lib) what html :
  keeps browsers (after_fetch lib what html).
Proof.
  unfold after_fetch, finish.
  apply keeps_bind; [now apply keeps_pure|]. intros soup.
  apply keeps_bind; [apply keeps_extract, browsers_frame|]. intros df.
  apply keeps_bind; [apply keeps_input, browsers_frame|]. intros l4.
  apply keeps_bind; [apply keeps_input, browsers_frame|]. intros l5.
  apply keeps_browsers_save_df.
Qed.

Lemma run_browsers (lib : Lib) w :
  browsers (snd (run lib w)) = browsers (snd (main lib w)).
Proof.
  unfold run. destruct (main lib w) as [[u|[|code|e]] w']; reflexivity.
Qed.

(** X18: when the answer to the render prompt does not select the
    dynamic path, the run starts no browser session, however it
    ends. *)
Theorem run_static_no_browser (lib : Lib) w l1 l2 l3 rest :
  stdin w = Line l1 :: Line l2 :: Line l3 :: rest ->
  render_flag l3 = false ->
  browsers (snd (run lib w)) = browsers w.
Proof.
  intros Hin Hflag.
  rewrite run_browsers, (main_unfold lib w l1 l2 l3 rest Hin), Hflag.
  unfold fetch_html.
  rewrite (keeps_bind browsers _ _ (keeps_browsers_fetch_static lib _)
             (after_fetch_keeps_browsers lib _)).
  reflexivity.
Qed.

Lemma run_static_no_browser_witness :
  browsers
    (snd (run (Sample.lib Sample.three_tables 200 (Ok tt))
            (mkWorld [Line "http://example.org"; Line "1"; Line "yes";
                      Line "1"; Line "json"; Line "t"] [] 3 [])))
  = 3.
Proof.
  apply (run_static_no_browser (Sample.lib Sample.three_tables 200 (Ok tt))
           (mkWorld [Line "http://example.org"; Line "1"; Line "yes";
                     Line "1"; Line "json"; Line "t"] [] 3 [])
           "http://example.org" "1" "yes"
           [Line "1"; Line "json"; Line "t"]);
    reflexivity.
Defined.

(** The run in LINKS or PARAGRAPHS mode once the page is fetched and
    parsed: no selector is asked for, the next two answers are the
    format and the base name. *)
Lemma main_records_mode (lib : Lib) w l1 l2 l3 l4 l5 rest html w1 soup df :
  stdin w = Line l1 :: Line l2 :: Line l3 :: Line l4 :: Line l5 :: rest ->
  (PyStr.strip l2 = "2" /\ df = extract_links lib soup)
  \/ (PyStr.strip l2 = "3" /\ df = extract_paragraphs lib soup) ->
  fetch_html lib (render_flag l3) (PyStr.strip l1)
             (set_stdin (Line l4 :: Line l5 :: rest) w)
  = (Ok html, w1) ->
  BeautifulSoup lib html = Ok soup ->
  main lib w
  = save_df lib df
            (or_default (PyStr.lower (PyStr.strip l4)) "csv")
            (or_default (PyStr.strip l5) "extracted")
            (mkWorld rest (stdout w) (browsers w1) (files w)).
Proof.
  intros Hin Hmode Hf Hs.
  destruct (main_after_fetch lib w l1 l2 l3 _ html w1 soup Hin Hf Hs)
    as [Hmain [Hi [Ho Hfi]]].
  rewrite Hmain. unfold finish, extract.
  destruct Hmode as [[-> ->] | [-> ->]]; simpl String.eqb; cbv iota;
    unfold bind at 1; unfold ret at 1;
    unfold bind at 1; rewrite (input_line w1 l4 _ Hi);
    unfold bind at 1; unfold input at 1;
    cbn [stdin stdout browsers files];
    now rewrite Ho, Hfi.
Qed.

(** X19: in LINKS and PARAGRAPHS mode, a blank format answer, or the
    answer csv in any case of letters, together with a blank name
    answer, makes the run write the CSV text of the extracted frame to
    [extracted.csv], when that file can be opened, and end with exit
    status 0. *)
Theorem run_default_format_and_name
        (lib : Lib) w l1 l2 l3 l4 l5 rest html w1 soup df :
  stdin w = Line l1 :: Line l2 :: Line l3 :: Line l4 :: Line l5 :: rest ->
  (PyStr.strip l2 = "2" /\ df = extract_links lib soup)
  \/ (PyStr.strip l2 = "3" /\ df = extract_paragraphs lib soup) ->
  fetch_html lib (render_flag l3) (PyStr.strip l1)
             (set_stdin (Line l4 :: Line l5 :: rest) w)
  = (Ok html, w1) ->
  BeautifulSoup lib html = Ok soup ->
  spaces l4 \/ PyStr.lower (PyStr.strip l4) = "csv" ->
  spaces l5 ->
  open_w lib "extracted.csv" = Ok tt ->
  run lib w
  = (0%Z,
     mkWorld rest (stdout w ++ [MsgSaved "extracted.csv"]) (browsers w1)
             (("extracted.csv", Pandas.to_csv df) :: files w)).
Proof.
  intros Hin Hmode Hf Hs Hfmt Hname Hopen. unfold run.
  rewrite (main_records_mode lib w l1 l2 l3 l4 l5 rest html w1 soup df
             Hin Hmode Hf Hs).
  assert (Hf4 : or_default (PyStr.lower (PyStr.strip l4)) "csv" = "csv").
  { destruct Hfmt as [H|H].
    - now rewrite (strip_spaces l4 H).
    - now rewrite H. }
  rewrite Hf4, (strip_spaces l5 Hname).
  now rewrite (save_df_csv lib df "extracted" _ Hopen).
Qed.

Lemma run_default_format_and_name_witness :
  run (Sample.lib [] 200 (Ok tt))
      (Sample.world ["http://example.org"; "3"; "h"; " CSV"; "  "])
  = (0%Z,
     mkWorld [] [MsgSaved "extracted.csv"] 0
       [("extracted.csv",
         Pandas.to_csv
           (extract_paragraphs (Sample.lib [] 200 (Ok tt)) Sample.page))]).
Proof.
  apply (run_default_format_and_name (Sample.lib [] 200 (Ok tt))
           (Sample.world ["http://example.org"; "3"; "h"; " CSV"; "  "])
           "http://example.org" "3" "h" " CSV" "  " []
           "http://example.org"
           (mkWorld [Line " CSV"; Line "  "] [] 0 []) Sample.page
           (extract_paragraphs (Sample.lib [] 200 (Ok tt)) Sample.page)).
  - reflexivity.
  - right. split; reflexivity.
  - reflexivity.
  - reflexivity.
  - right. reflexivity.
  - reflexivity.
  - reflexivity.
Defined.
